(** * Control core of the 4WD sensor car (sketch/4wd.ino)

    A shallow embedding of the ESP32 sketch: the ultrasonic distance
    function, the five motor functions, the telemetry handler, the mode
    handlers and the setup/loop life cycle, followed by the properties
    the specification states about them.

    Conventions.
    - GPIO output latches are a finite map from pin number to level;
      [digitalWrite] is a map insert, exactly one pin per call.
    - [float] is IEEE binary32 and [double] is IEEE binary64, both with
      round-to-nearest-even, computed with the Standard Library's
      [SpecFloat] (an executable, axiom-free model of IEEE arithmetic).
    - What the sketch reads from the outside (echo pulse width, digital
      input levels, DHT and MPU readings) is a record of inputs handed to
      the handler; what it sends is the HTTP response it returns. *)

From Stdlib Require Import ZArith Lia.
From Stdlib Require Import Floats.SpecFloat.
From Stdlib Require Import DecimalString.
From stdpp Require Import gmap strings.

Local Open Scope Z_scope.

(* ===================================================================== *)
(** ** IEEE arithmetic as the compiler emits it                           *)
(* ===================================================================== *)

Module IEEE.

(** [double]: 53 bits of precision, infinities at exponent 1024. *)
Definition dprec : Z := 53.
Definition demax : Z := 1024.
(** [float]: 24 bits of precision, infinities at exponent 128. *)
Definition fprec : Z := 24.
Definition femax : Z := 128.

(** Integer to [double] conversion (exact below 2^53). *)
Definition double_of_Z (z : Z) : spec_float :=
  binary_normalize dprec demax z 0 false.

(** Rounding of a value to a format; used for [double] to [float]
    (may round) and for [float] to [double] (always exact, it only
    renormalises the mantissa so that comparisons are meaningful). *)
Definition round_to (prec emax : Z) (x : spec_float) : spec_float :=
  match x with
  | S754_finite s m e => binary_round prec emax s m e
  | _ => x
  end.

Definition float_of_double : spec_float -> spec_float := round_to fprec femax.
Definition double_of_float : spec_float -> spec_float := round_to dprec demax.

Definition dmul : spec_float -> spec_float -> spec_float := SFmul dprec demax.
Definition ddiv : spec_float -> spec_float -> spec_float := SFdiv dprec demax.

(** [x > y] on doubles; false when either side is NaN. *)
Definition dgt (x y : spec_float) : bool := SFltb y x.
(** [x <= y] on doubles; false when either side is NaN. *)
Definition dle (x y : spec_float) : bool := SFleb x y.

(** A decimal literal [n/d], correctly rounded to [double]. *)
Definition double_lit (n d : Z) : spec_float :=
  ddiv (double_of_Z n) (double_of_Z d).
(** The same literal, correctly rounded to [float]. *)
Definition float_lit (n d : Z) : spec_float :=
  SFdiv fprec femax (binary_normalize fprec femax n 0 false)
                    (binary_normalize fprec femax d 0 false).

(** The literals of the sketch. *)
Definition d0_034 : spec_float := Eval vm_compute in double_lit 34 1000.
Definition d20_0 : spec_float := Eval vm_compute in double_of_Z 20.
Definition d2 : spec_float := Eval vm_compute in double_of_Z 2.
(** [20.0] once stored in, or returned as, a [float]. *)
Definition f20_0 : spec_float := Eval vm_compute in float_of_double d20_0.

(** Not a NaN. *)
Definition is_number (x : spec_float) : bool :=
  match x with S754_nan => false | _ => true end.

End IEEE.
Import IEEE.

(** C's conversion of an [unsigned long] to the 32-bit [long] of the
    ESP32: wrap-around into [-2^31, 2^31). *)
Definition to_long (z : Z) : Z := (z + 2 ^ 31) mod 2 ^ 32 - 2 ^ 31.

(* ===================================================================== *)
(** ** Pin mapping and program state                                      *)
(* ===================================================================== *)

Definition TRIG_PIN : Z := 5.
Definition ECHO_PIN : Z := 18.
Definition IN1 : Z := 26.
Definition IN2 : Z := 27.
Definition IN3 : Z := 14.
Definition IN4 : Z := 12.
Definition IR_PIN : Z := 34.
Definition SERVO_PIN : Z := 25.
Definition PIR_PIN : Z := 35.
Definition DHT_PIN : Z := 4.
Definition FLAME_PIN : Z := 32.
Definition SDA_PIN : Z := 21.
Definition SCL_PIN : Z := 22.

Inductive Level := LOW | HIGH.
Inductive PinMode := INPUT | OUTPUT.

Global Instance Level_eq_dec : EqDecision Level.
Proof. solve_decision. Defined.

(** The globals of the sketch together with the GPIO matrix. *)
Record World := mkWorld {
  gpio_out : gmap Z Level;      (* level the sketch last wrote with digitalWrite *)
  gpio_mode : gmap Z PinMode;   (* direction the sketch set with pinMode *)
  autonomousMode : bool;        (* bool autonomousMode *)
  duration : Z;                 (* long duration *)
  distance : spec_float         (* float distance *)
}.

(** The globals as the C++ start-up code leaves them. *)
Definition boot : World :=
  {| gpio_out := ∅; gpio_mode := ∅; autonomousMode := false;
     duration := 0; distance := S754_zero false |}.

Definition digitalWrite (pin : Z) (v : Level) (w : World) : World :=
  {| gpio_out := <[pin := v]> (gpio_out w); gpio_mode := gpio_mode w;
     autonomousMode := autonomousMode w;
     duration := duration w; distance := distance w |}.

Definition pinMode (pin : Z) (m : PinMode) (w : World) : World :=
  {| gpio_out := gpio_out w; gpio_mode := <[pin := m]> (gpio_mode w);
     autonomousMode := autonomousMode w;
     duration := duration w; distance := distance w |}.

Definition set_autonomousMode (b : bool) (w : World) : World :=
  {| gpio_out := gpio_out w; gpio_mode := gpio_mode w;
     autonomousMode := b;
     duration := duration w; distance := distance w |}.

Definition set_duration (d : Z) (w : World) : World :=
  {| gpio_out := gpio_out w; gpio_mode := gpio_mode w;
     autonomousMode := autonomousMode w;
     duration := d; distance := distance w |}.

Definition set_distance (x : spec_float) (w : World) : World :=
  {| gpio_out := gpio_out w; gpio_mode := gpio_mode w;
     autonomousMode := autonomousMode w;
     duration := duration w; distance := x |}.

(** The four direction outputs, in the order (IN1, IN2, IN3, IN4). *)
Definition outputs (w : World) : option Level * option Level * option Level * option Level :=
  (gpio_out w !! IN1, gpio_out w !! IN2, gpio_out w !! IN3, gpio_out w !! IN4).

(* ===================================================================== *)
(** ** Distance function (20 cm cap)                                      *)
(* ===================================================================== *)

(** [duration * 0.034 / 2] evaluated in [double] and stored in the
    [float] global. *)
Definition raw_distance (dur : Z) : spec_float :=
  float_of_double (ddiv (dmul (double_of_Z dur) d0_034) d2).

(** [getDistance]: [echo] is what [pulseIn(ECHO_PIN, HIGH, 30000)]
    returns, 0 on time-out. The result is the returned [float] and the
    state left behind (trigger pin and the two globals). *)
Definition getDistance (echo : Z) (w : World) : spec_float * World :=
  let w := digitalWrite TRIG_PIN LOW w in
  let w := digitalWrite TRIG_PIN HIGH w in
  let w := digitalWrite TRIG_PIN LOW w in
  let w := set_duration (to_long echo) w in
  if duration w =? 0 then (f20_0, w)
  else
    let w := set_distance (raw_distance (duration w)) w in
    let w := if dgt (double_of_float (distance w)) d20_0
             then set_distance f20_0 w else w in
    (distance w, w).

(* ===================================================================== *)
(** ** Motor functions                                                    *)
(* ===================================================================== *)

Definition forward (w : World) : World :=
  let w := digitalWrite IN1 LOW w in let w := digitalWrite IN2 HIGH w in
  let w := digitalWrite IN3 LOW w in digitalWrite IN4 HIGH w.

Definition backward (w : World) : World :=
  let w := digitalWrite IN1 HIGH w in let w := digitalWrite IN2 LOW w in
  let w := digitalWrite IN3 HIGH w in digitalWrite IN4 LOW w.

Definition left (w : World) : World :=
  let w := digitalWrite IN1 LOW w in let w := digitalWrite IN2 HIGH w in
  let w := digitalWrite IN3 HIGH w in digitalWrite IN4 LOW w.

Definition right (w : World) : World :=
  let w := digitalWrite IN1 HIGH w in let w := digitalWrite IN2 LOW w in
  let w := digitalWrite IN3 LOW w in digitalWrite IN4 HIGH w.

Definition stopCar (w : World) : World :=
  let w := digitalWrite IN1 LOW w in let w := digitalWrite IN2 LOW w in
  let w := digitalWrite IN3 LOW w in digitalWrite IN4 LOW w.

(* ===================================================================== *)
(** ** Text and HTTP responses                                            *)
(* ===================================================================== *)

(** The double-quote character written as an escape inside the C string
    literals of [handleData]. *)
Definition dq : string := String (Ascii.ascii_of_nat 34) EmptyString.

Definition dec (n : Z) : string := NilZero.string_of_uint (N.to_uint (Z.to_N n)).

(** [|m * 2^e| * 100] rounded half up to an integer: the value in
    hundredths that a two-decimal rendering prints. *)
Definition hundredths (m : positive) (e : Z) : Z :=
  if 0 <=? e then Z.pos m * 2 ^ e * 100
  else (2 * (Z.pos m * 100) + 2 ^ (- e)) / 2 ^ (- e + 1).

(** Model of the Arduino core's [String(float value, unsigned int
    decimalPlaces = 2)], the constructor [handleData] calls with the
    default argument: the value with exactly two digits after the
    decimal point. The model rounds the exact value half up. The core
    adds 0.005 in [double] and cuts the digits off, so on a value that
    lies exactly on a tie (2.125, say) it can print the lower
    neighbour; the two agree wherever the value is not on a tie, as for
    every value printed below. The core is a library outside the
    sketch; every definition of the sketch below is parametric in this
    conversion, and this model is supplied only where a concrete
    response text is computed. *)
Definition String_2dp (x : spec_float) : string :=
  match x with
  | S754_nan => "nan"
  | S754_infinity _ => "inf"
  | S754_zero _ => "0.00"
  | S754_finite s m e =>
      let h := hundredths m e in
      let frac := h mod 100 in
      (if s then "-" else "") +:+ dec (h / 100) +:+ "." +:+
      (if frac <? 10 then "0" else "") +:+ dec frac
  end.

Record Response := mkResponse {
  status : Z;
  content_type : option string;
  headers : list (string * string);
  body : string
}.

(** [server.sendHeader("Location", "/"); server.send(303);] *)
Definition redirect : Response :=
  {| status := 303; content_type := None;
     headers := [("Location", "/")]; body := "" |}.

(** What one request reads from the outside world. *)
Record Sensors := mkSensors {
  pulseIn : Z;                      (* pulseIn(ECHO_PIN, HIGH, 30000) *)
  digitalRead : Z -> Z;             (* digitalRead(pin) *)
  readTemperature : spec_float;     (* dht.readTemperature() *)
  readHumidity : spec_float;        (* dht.readHumidity() *)
  acceleration : spec_float * spec_float * spec_float;  (* a.acceleration *)
  gyro : spec_float * spec_float * spec_float           (* g.gyro *)
}.

Inductive Phase :=
  | MpuHalt     (* while (1) delay(10); after a failed mpu.begin() *)
  | WifiWait    (* while (WiFi.status() != WL_CONNECTED) ... *)
  | Serving.    (* loop() *)

Record Machine := mkMachine { phase : Phase; world : World }.

(** What an observer sees of one step of the life cycle. *)
Inductive Event :=
  | Delay (ms : Z)                          (* delay(ms) inside a wait loop *)
  | WifiUp                                  (* routes registered, server.begin() *)
  | Idle                                    (* loop() with no pending client *)
  | Served (path : string) (r : Response)   (* a registered handler ran *)
  | NotFound (path : string).               (* no route: framework default *)

Definition is_request (e : Event) : bool :=
  match e with
  | Served _ _ | NotFound _ => true
  | _ => false
  end.

Section Sketch.

(** The Arduino core's [String(float)] and the static dashboard page
    built by [handleRoot]; no result depends on the page's text. *)
Variable String_float : spec_float -> string.
Variable dashboard_html : string.

(* =================================================================== *)
(** ** JSON data endpoint                                               *)
(* =================================================================== *)

Definition handleData (env : Sensors) (w : World) : World * Response :=
  let '(dist, w) := getDistance (pulseIn env) w in
  let irVal := digitalRead env IR_PIN in
  let flameVal := digitalRead env FLAME_PIN in
  let pirVal := digitalRead env PIR_PIN in
  let temp := readTemperature env in
  let hum := readHumidity env in
  let '(ax, ay, az) := acceleration env in
  let '(gx, gy, gz) := gyro env in
  let json := "{" in
  let json := json +:+ (((dq +:+ "distance" +:+ dq +:+ ":") +:+ String_float dist) +:+ ",") in
  let json := json +:+ (((dq +:+ "ir" +:+ dq +:+ ":" +:+ dq)
                +:+ (if irVal =? 0 then "Object Detected" else "Clear")) +:+ (dq +:+ ",")) in
  let json := json +:+ (((dq +:+ "motion" +:+ dq +:+ ":" +:+ dq)
                +:+ (if pirVal =? 1 then "Motion Detected" else "No Motion")) +:+ (dq +:+ ",")) in
  let json := json +:+ (((dq +:+ "temperature" +:+ dq +:+ ":") +:+ String_float temp) +:+ ",") in
  let json := json +:+ (((dq +:+ "humidity" +:+ dq +:+ ":") +:+ String_float hum) +:+ ",") in
  let json := json +:+ (((dq +:+ "flame" +:+ dq +:+ ":" +:+ dq)
                +:+ (if flameVal =? 0 then "Flame Detected" else "No Flame")) +:+ (dq +:+ ",")) in
  let json := json +:+ (((((((dq +:+ "accel" +:+ dq +:+ ":" +:+ dq +:+ "X=")
                +:+ String_float ax) +:+ " Y=") +:+ String_float ay) +:+ " Z=")
                +:+ String_float az) +:+ (dq +:+ ",")) in
  let json := json +:+ (((((((dq +:+ "gyro" +:+ dq +:+ ":" +:+ dq +:+ "X=")
                +:+ String_float gx) +:+ " Y=") +:+ String_float gy) +:+ " Z=")
                +:+ String_float gz) +:+ (dq +:+ ",")) in
  let json := json +:+ (((dq +:+ "autonomous" +:+ dq +:+ ":" +:+ dq)
                +:+ (if autonomousMode w then "ENABLED" else "DISABLED")) +:+ dq) in
  let json := json +:+ "}" in
  (w, {| status := 200; content_type := Some "application/json";
         headers := []; body := json |}).

(* =================================================================== *)
(** ** Web page and control handlers                                    *)
(* =================================================================== *)

Definition handleRoot (w : World) : World * Response :=
  (w, {| status := 200; content_type := Some "text/html";
         headers := []; body := dashboard_html |}).

Definition handleForward (w : World) : World * Response := (forward w, redirect).
Definition handleBackward (w : World) : World * Response := (backward w, redirect).
Definition handleLeft (w : World) : World * Response := (left w, redirect).
Definition handleRight (w : World) : World * Response := (right w, redirect).
Definition handleStop (w : World) : World * Response := (stopCar w, redirect).
Definition handleEnableAuto (w : World) : World * Response :=
  (set_autonomousMode true w, redirect).
Definition handleDisableAuto (w : World) : World * Response :=
  (set_autonomousMode false w, redirect).

(* =================================================================== *)
(** ** setup() and loop()                                               *)
(* =================================================================== *)

(** The routes registered with [server.on], first match wins. *)
Definition route (path : string) : option (Sensors -> World -> World * Response) :=
  if String.eqb path "/" then Some (fun _ => handleRoot)
  else if String.eqb path "/data" then Some handleData
  else if String.eqb path "/forward" then Some (fun _ => handleForward)
  else if String.eqb path "/backward" then Some (fun _ => handleBackward)
  else if String.eqb path "/left" then Some (fun _ => handleLeft)
  else if String.eqb path "/right" then Some (fun _ => handleRight)
  else if String.eqb path "/stop" then Some (fun _ => handleStop)
  else if String.eqb path "/enableAuto" then Some (fun _ => handleEnableAuto)
  else if String.eqb path "/disableAuto" then Some (fun _ => handleDisableAuto)
  else None.

(** [server.handleClient()]: at most one pending request is served. *)
Definition handleClient (pending : option (string * Sensors)) (w : World)
  : World * Event :=
  match pending with
  | None => (w, Idle)
  | Some (path, env) =>
      match route path with
      | Some h => let '(w', r) := h env w in (w', Served path r)
      | None => (w, NotFound path)
      end
  end.

(** The part of [setup] that runs before the sensors are started. *)
Definition setup_pins (w : World) : World :=
  let w := pinMode IN1 OUTPUT w in let w := pinMode IN2 OUTPUT w in
  let w := pinMode IN3 OUTPUT w in let w := pinMode IN4 OUTPUT w in
  let w := pinMode TRIG_PIN OUTPUT w in let w := pinMode ECHO_PIN INPUT w in
  let w := pinMode IR_PIN INPUT w in let w := pinMode PIR_PIN INPUT w in
  let w := pinMode FLAME_PIN INPUT w in
  stopCar w.

(** [setup] up to the point where it starts waiting: [mpu_begin] is
    the result of [mpu.begin()]. *)
Definition setup (mpu_begin : bool) (w : World) : Machine :=
  let w := setup_pins w in
  if negb mpu_begin then {| phase := MpuHalt; world := w |}
  else {| phase := WifiWait; world := w |}.

(** One observable step of the running program. *)
Inductive step : Machine -> Event -> Machine -> Prop :=
  | step_halt w :
      step {| phase := MpuHalt; world := w |} (Delay 10)
           {| phase := MpuHalt; world := w |}
  | step_wifi_wait w :
      step {| phase := WifiWait; world := w |} (Delay 500)
           {| phase := WifiWait; world := w |}
  | step_wifi_up w :
      step {| phase := WifiWait; world := w |} WifiUp
           {| phase := Serving; world := w |}
  | step_loop w pending :
      step {| phase := Serving; world := w |}
           (snd (handleClient pending w))
           {| phase := Serving; world := fst (handleClient pending w) |}.

(** Finite executions with the events they show. *)
Inductive run : Machine -> list Event -> Machine -> Prop :=
  | run_done m : run m [] m
  | run_step m1 e m2 tr m3 :
      step m1 e m2 -> run m2 tr m3 -> run m1 (e :: tr) m3.

End Sketch.

(* ===================================================================== *)
(** ** The vocabulary of the specification                                *)
(* ===================================================================== *)

(** The specification's [DriveCommand] and [apply]: the motor function
    that each movement route invokes. *)
Inductive DriveCommand := Forward | Backward | Left | Right | Stop.

Definition applyCommand (c : DriveCommand) : World -> World :=
  match c with
  | Forward => forward
  | Backward => backward
  | Left => left
  | Right => right
  | Stop => stopCar
  end.

(** The specification's truth table, in the order (IN1, IN2, IN3, IN4). *)
Definition truth_table (c : DriveCommand) : Level * Level * Level * Level :=
  match c with
  | Forward => (LOW, HIGH, LOW, HIGH)
  | Backward => (HIGH, LOW, HIGH, LOW)
  | Left => (LOW, HIGH, HIGH, LOW)
  | Right => (HIGH, LOW, LOW, HIGH)
  | Stop => (LOW, LOW, LOW, LOW)
  end.

(** The specification's [isAutonomous]: the flag as [handleData] reads it. *)
Definition isAutonomous (w : World) : bool := autonomousMode w.

(** The two complementary signals of one motor are never both high. *)
Definition pair_ok (a b : option Level) : Prop :=
  (a, b) = (Some LOW, Some LOW) \/ (a, b) = (Some LOW, Some HIGH)
  \/ (a, b) = (Some HIGH, Some LOW).

Definition no_shoot_through (w : World) : Prop :=
  pair_ok (gpio_out w !! IN1) (gpio_out w !! IN2)
  /\ pair_ok (gpio_out w !! IN3) (gpio_out w !! IN4).


(** A flat JSON object as the specification lists it: numbers are written
    bare, strings between double quotes. *)
Inductive JsonValue := JNum (text : string) | JStr (text : string).

Definition render_value (v : JsonValue) : string :=
  match v with
  | JNum t => t
  | JStr t => dq +:+ t +:+ dq
  end.

Definition render_field (kv : string * JsonValue) : string :=
  dq +:+ fst kv +:+ dq +:+ ":" +:+ render_value (snd kv).

Fixpoint render_fields (kvs : list (string * JsonValue)) : string :=
  match kvs with
  | [] => ""
  | [kv] => render_field kv
  | kv :: rest => render_field kv +:+ "," +:+ render_fields rest
  end.

Definition render_object (kvs : list (string * JsonValue)) : string :=
  "{" +:+ render_fields kvs +:+ "}".

(** The value stored under a key of a flat object. *)
Fixpoint field (key : string) (kvs : list (string * JsonValue)) : option JsonValue :=
  match kvs with
  | [] => None
  | (k, v) :: rest => if String.eqb k key then Some v else field key rest
  end.


(** The telemetry record of section 6 of the specification: the nine
    keys in response order, each with the kind of value it carries. *)
Definition telemetry_fields (fmt : spec_float -> string) (dist : spec_float)
    (env : Sensors) (auto : bool) : list (string * JsonValue) :=
  let xyz v := let '(x, y, z) := v in
               "X=" +:+ fmt x +:+ " Y=" +:+ fmt y +:+ " Z=" +:+ fmt z in
  [ ("distance", JNum (fmt dist));
    ("ir", JStr (if digitalRead env IR_PIN =? 0 then "Object Detected" else "Clear"));
    ("motion", JStr (if digitalRead env PIR_PIN =? 1 then "Motion Detected" else "No Motion"));
    ("temperature", JNum (fmt (readTemperature env)));
    ("humidity", JNum (fmt (readHumidity env)));
    ("flame", JStr (if digitalRead env FLAME_PIN =? 0 then "Flame Detected" else "No Flame"));
    ("accel", JStr (xyz (acceleration env)));
    ("gyro", JStr (xyz (gyro env)));
    ("autonomous", JStr (if auto then "ENABLED" else "DISABLED")) ].

(** How a client reads a bare number out of a response body: the text
    after the first occurrence of the quoted key and a colon, up to the
    next comma or closing brace. *)
Fixpoint starts_with (p s : string) : bool :=
  match p, s with
  | EmptyString, _ => true
  | String a p', String b s' => if Ascii.eqb a b then starts_with p' s' else false
  | String _ _, EmptyString => false
  end.

Fixpoint skip (n : nat) (s : string) : string :=
  match n, s with
  | O, _ => s
  | S n', String _ s' => skip n' s'
  | S _, EmptyString => EmptyString
  end.

Fixpoint after (p s : string) : option string :=
  if starts_with p s then Some (skip (String.length p) s)
  else match s with
       | EmptyString => None
       | String _ s' => after p s'
       end.

Fixpoint number_text (s : string) : string :=
  match s with
  | EmptyString => EmptyString
  | String c s' =>
      if Ascii.eqb c (Ascii.ascii_of_nat 44) || Ascii.eqb c (Ascii.ascii_of_nat 125)
      then EmptyString else String c (number_text s')
  end.

Definition number_field (key body : string) : option string :=
  number_text <$> after (dq +:+ key +:+ dq +:+ ":") body.

(** A set of readings with a given echo width and every other sensor
    idle: inputs high, 25 degrees, 50 percent, no motion of the MPU. *)
Definition quiet (echo : Z) : Sensors :=
  {| pulseIn := echo;
     digitalRead := fun pin => if pin =? PIR_PIN then 0 else 1;
     readTemperature := float_lit 25 1;
     readHumidity := float_lit 50 1;
     acceleration := (S754_zero false, S754_zero false, S754_zero false);
     gyro := (S754_zero false, S754_zero false, S754_zero false) |}.

(* ===================================================================== *)
(** ** The dashboard page                                                 *)
(* ===================================================================== *)

(** The text [handleRoot] builds, one string per [html += ...] statement
    of the source, in order. *)
Definition dashboard_lines : list string :=
  [ "<!DOCTYPE html><html><head><meta charset='UTF-8'>";
    "<title>System Dashboard</title>";
    "<style>";
    "body { font-family: Arial, sans-serif; background:#f4f6f9; margin:20px; color:#222; }";
    "h1 { text-align:center; font-weight:500; margin-bottom:25px; }";
    ".dashboard { display:grid; grid-template-columns:repeat(auto-fit,minmax(280px,1fr)); gap:20px; margin-bottom:20px; }";
    ".card { background:white; border-radius:14px; padding:20px; box-shadow:0 3px 8px rgba(0,0,0,0.1); }";
    ".label { color:#555; font-weight:600; font-size:1.1em; }";
    ".value { font-size:1.3em; font-weight:bold; color:#111; display:block; margin-top:5px; }";
    ".controls { text-align:center; margin-top:25px; }";
    "button { padding:14px 22px; margin:8px; border:none; border-radius:10px; font-weight:600; cursor:pointer; transition:0.3s; font-size:1em; }";
    ".forward { background:#28a745; color:white; }";
    ".backward { background:#dc3545; color:white; }";
    ".left,.right { background:#007bff; color:white; }";
    ".stop { background:#343a40; color:white; }";
    ".toggle { background:#ff9800; color:white; }";
    ".status { font-weight:bold; margin-top:10px; font-size:1.1em; }";
    ".active { color:green; }";
    ".inactive { color:red; }";
    "</style></head><body>";
    "<h1>System Dashboard</h1>";
    "<div class='dashboard'>";
    "<div class='card'><span class='label'>Ultrasonic:</span> <span class='value' id='distance'>--</span></div>";
    "<div class='card'><span class='label'>IR Obstacle:</span> <span class='value' id='ir'>--</span></div>";
    "<div class='card'><span class='label'>Motion Sensor:</span> <span class='value' id='motion'>--</span></div>";
    "<div class='card'><span class='label'>Temperature:</span> <span class='value' id='temperature'>--</span></div>";
    "<div class='card'><span class='label'>Humidity:</span> <span class='value' id='humidity'>--</span></div>";
    "<div class='card'><span class='label'>Flame Sensor:</span> <span class='value' id='flame'>--</span></div>";
    "<div class='card'><span class='label'>Gyro Accel:</span> <span class='value' id='accel'>--</span></div>";
    "<div class='card'><span class='label'>Gyro Rotation:</span> <span class='value' id='gyro'>--</span></div>";
    "</div>";
    "<h2 style='text-align:center;'>Controls</h2>";
    "<div class='controls'>";
    "<a href='/forward'><button class='forward'>Forward</button></a> ";
    "<a href='/backward'><button class='backward'>Backward</button></a> ";
    "<a href='/left'><button class='left'>Left</button></a> ";
    "<a href='/right'><button class='right'>Right</button></a> ";
    "<a href='/stop'><button class='stop'>Stop</button></a>";
    "</div>";
    "<div class='controls'>";
    "<p class='status' id='autonomous'>--</p>";
    "<a href='/enableAuto'><button class='toggle'>Enable Autonomous</button></a>";
    "<a href='/disableAuto'><button class='toggle'>Disable Autonomous</button></a>";
    "</div>";
    "<script>";
    "function updateData(){fetch('/data').then(r=>r.json()).then(d=>{";
    "document.getElementById('distance').innerText=d.distance+' cm';";
    "document.getElementById('ir').innerText=d.ir;";
    "document.getElementById('motion').innerText=d.motion;";
    "document.getElementById('temperature').innerText=d.temperature+' °C';";
    "document.getElementById('humidity').innerText=d.humidity+' %';";
    "document.getElementById('flame').innerText=d.flame;";
    "document.getElementById('accel').innerText=d.accel;";
    "document.getElementById('gyro').innerText=d.gyro;";
    "document.getElementById('autonomous').innerText='Autonomous Mode: '+d.autonomous;";
    "document.getElementById('autonomous').className=(d.autonomous==='ENABLED'?'status active':'status inactive');";
    "});}";
    "setInterval(updateData,1000); updateData();";
    "</script>";
    "</body></html>" ].

Definition dashboard_page : string := String.concat "" dashboard_lines.

(** The links and script reads of a page, as a browser finds them. *)
Fixpoint until (stop : Ascii.ascii) (s : string) : string :=
  match s with
  | EmptyString => EmptyString
  | String c s' => if Ascii.eqb c stop then EmptyString else String c (until stop s')
  end.

(** Every text that follows an occurrence of [p], up to the next
    apostrophe. *)
Fixpoint quoted_after (p s : string) : list string :=
  (if starts_with p s
   then [until (Ascii.ascii_of_nat 39) (skip (String.length p) s)] else [])
  ++ match s with
     | EmptyString => []
     | String _ s' => quoted_after p s'
     end.

(** The targets of the page: its [href] attributes and what its script
    fetches. *)
Definition page_links (page : string) : list string :=
  quoted_after "href='" page ++ quoted_after "fetch('" page.

Definition is_letter (c : Ascii.ascii) : bool :=
  let n := Z.of_nat (Ascii.nat_of_ascii c) in
  ((97 <=? n) && (n <=? 122)) || ((65 <=? n) && (n <=? 90)).

Fixpoint identifier (s : string) : string :=
  match s with
  | EmptyString => EmptyString
  | String c s' => if is_letter c then String c (identifier s') else EmptyString
  end.

(** The members [d.<name>] the script reads off the parsed response
    [d]; [in_word] tells whether the previous character was a letter. *)
Fixpoint member_reads (in_word : bool) (s : string) : list string :=
  match s with
  | EmptyString => []
  | String c s' =>
      (if negb in_word && starts_with "d." s then [identifier (skip 2 s)] else [])
      ++ member_reads (is_letter c) s'
  end.

(* ===================================================================== *)
(** ** What a trace of events says about the state                        *)
(* ===================================================================== *)

(** The drive command a path stands for. *)
Definition command_of_path (path : string) : option DriveCommand :=
  if String.eqb path "/forward" then Some Forward
  else if String.eqb path "/backward" then Some Backward
  else if String.eqb path "/left" then Some Left
  else if String.eqb path "/right" then Some Right
  else if String.eqb path "/stop" then Some Stop
  else None.

Definition path_of_command (c : DriveCommand) : string :=
  match c with
  | Forward => "/forward"
  | Backward => "/backward"
  | Left => "/left"
  | Right => "/right"
  | Stop => "/stop"
  end.

(** The nine paths [setup] registers. *)
Definition registered : list string :=
  ["/"; "/data"; "/forward"; "/backward"; "/left"; "/right"; "/stop";
   "/enableAuto"; "/disableAuto"].

Definition lift4 (t : Level * Level * Level * Level)
  : option Level * option Level * option Level * option Level :=
  let '(a, b, c, d) := t in (Some a, Some b, Some c, Some d).

(** The mode flag after an event, given the flag before it. *)
Definition mode_step (e : Event) (b : bool) : bool :=
  match e with
  | Served path _ =>
      if String.eqb path "/enableAuto" then true
      else if String.eqb path "/disableAuto" then false
      else b
  | _ => b
  end.

(** The four direction outputs after an event, given them before it. *)
Definition outputs_step (e : Event)
    (o : option Level * option Level * option Level * option Level) :=
  match e with
  | Served path _ =>
      match command_of_path path with
      | Some c => lift4 (truth_table c)
      | None => o
      end
  | _ => o
  end.

Definition mode_after (tr : list Event) (b : bool) : bool :=
  foldl (fun b e => mode_step e b) b tr.

Definition outputs_after (tr : list Event)
    (o : option Level * option Level * option Level * option Level) :=
  foldl (fun o e => outputs_step e o) o tr.

(* ===================================================================== *)
(** ** A table of raw distances                                           *)
(* ===================================================================== *)

(** The raw distance of an echo, as the [double] it is compared as. *)
Definition raw_as_double (echo : Z) : spec_float :=
  double_of_float (raw_distance echo).

(** A raw distance strictly between 0 and the cap. *)
Definition below_cap (echo : Z) : bool :=
  SFltb (S754_zero false) (raw_as_double echo) && SFltb (raw_as_double echo) d20_0.

(** A positive number that is not an infinity. *)
Definition positive_finite (x : spec_float) : bool :=
  match x with
  | S754_finite false _ _ => true
  | _ => false
  end.

(** The raw distances of [k, k+1, ..., k+n-1] are below the cap and
    none is smaller than the one before it, [prev] being the one before
    the first. *)
Fixpoint rising (prev : spec_float) (k : Z) (n : nat) : bool :=
  match n with
  | O => true
  | S n' =>
      let x := raw_as_double k in
      SFleb prev x && SFltb x d20_0 && rising x (k + 1) n'
  end.

(** The same for [lo, ..., lo+n], the first one positive. *)
Definition ladder (lo : Z) (n : nat) : bool :=
  let x := raw_as_double lo in
  SFltb (S754_zero false) x && SFltb x d20_0 && rising x (lo + 1) n.

(* ===================================================================== *)
(** ** The exact value a raw distance stands for                          *)
(* ===================================================================== *)

(** The same number, field by field. *)
Definition same_float (x y : spec_float) : bool :=
  match x, y with
  | S754_zero a, S754_zero b => Bool.eqb a b
  | S754_infinity a, S754_infinity b => Bool.eqb a b
  | S754_nan, S754_nan => true
  | S754_finite a m e, S754_finite b m' e' =>
      Bool.eqb a b && Pos.eqb m m' && Z.eqb e e'
  | _, _ => false
  end.

(** [x] is a positive [float] with a full 24-bit mantissa [m] and
    exponent [e], and [m * 2^e] is within half a unit in the last place
    of the fraction [n / d] (with [0 < d]): in integers,
    [|2 d m 2^e - 2 n| <= d 2^e]. *)
Definition nearest_float (x : spec_float) (n d : Z) : bool :=
  match x with
  | S754_finite false m e =>
      (Z.pos (digits2_pos m) =? fprec)
      && (if e <? 0
          then Z.abs (2 * d * Z.pos m - 2 * n * 2 ^ (- e)) <=? d
          else Z.abs (2 * d * (Z.pos m * 2 ^ e) - 2 * n) <=? d * 2 ^ e)
  | _ => false
  end.

(** The raw distance of a duration [k] is the [float] nearest to the
    exact [k * 0.034 / 2 = 17 k / 1000]. *)
Definition reference_at (k : Z) : bool :=
  same_float (raw_distance k) (float_lit (17 * k) 1000)
  && nearest_float (raw_distance k) (17 * k) 1000.

(** [P k] for every [k] with [lo <= k < lo + n]. *)
Definition all_from (lo : Z) (n : nat) (P : Z -> bool) : bool :=
  forallb (fun i => P (lo + Z.of_nat i)) (seq 0 n).

(* ===================================================================== *)
(** ** The writes of a drive function, one at a time                      *)
(* ===================================================================== *)

(** The four [digitalWrite] calls of each motor function, in source
    order. *)
Definition drive_writes (c : DriveCommand) : list (Z * Level) :=
  match c with
  | Forward => [(IN1, LOW); (IN2, HIGH); (IN3, LOW); (IN4, HIGH)]
  | Backward => [(IN1, HIGH); (IN2, LOW); (IN3, HIGH); (IN4, LOW)]
  | Left => [(IN1, LOW); (IN2, HIGH); (IN3, HIGH); (IN4, LOW)]
  | Right => [(IN1, HIGH); (IN2, LOW); (IN3, LOW); (IN4, HIGH)]
  | Stop => [(IN1, LOW); (IN2, LOW); (IN3, LOW); (IN4, LOW)]
  end.

Definition do_writes (ws : list (Z * Level)) (w : World) : World :=
  foldl (fun w pv => digitalWrite (fst pv) (snd pv) w) w ws.


(* ===================================================================== *)
(** ** Serving a list of requests                                         *)
(* ===================================================================== *)

(** [loop] run once per element of [reqs] ([None]: no client pending):
    the events shown and the state left. *)
Fixpoint serve (fmt : spec_float -> string) (html : string)
    (reqs : list (option (string * Sensors))) (w : World) : list Event * World :=
  match reqs with
  | [] => ([], w)
  | pending :: rest =>
      let '(w', e) := handleClient fmt html pending w in
      let '(tr, w'') := serve fmt html rest w' in
      (e :: tr, w'')
  end.

(** A short session: enable autonomous mode, drive forward, stop, idle,
    ask for an unknown page, read the telemetry. *)
Definition session : list (option (string * Sensors)) :=
  [ Some ("/enableAuto", quiet 0); Some ("/forward", quiet 0);
    Some ("/stop", quiet 0); None; Some ("/favicon.ico", quiet 0);
    Some ("/data", quiet 600) ].
(* ===================================================================== *)
(** * Properties                                                          *)
(* ===================================================================== *)

(** ** Facts about the IEEE operations: no NaN from non-negative mantissas *)

Section RoundingFacts.
Variables prec emax : Z.

Lemma shr_1_nonneg mrs : 0 <= shr_m mrs -> 0 <= shr_m (shr_1 mrs).
Proof.
  destruct mrs as [m r s]; simpl.
  destruct m as [|[p|p|]|[p|p|]]; simpl; lia.
Qed.

Lemma iter_shr_1_nonneg p :
  forall mrs, 0 <= shr_m mrs -> 0 <= shr_m (SpecFloat.iter_pos shr_1 p mrs).
Proof.
  induction p as [p IH|p IH|]; intros mrs Hm; simpl.
  - apply IH, IH, shr_1_nonneg, Hm.
  - apply IH, IH, Hm.
  - apply shr_1_nonneg, Hm.
Qed.

Lemma shr_fexp_nonneg m e l :
  0 <= m -> 0 <= shr_m (fst (shr_fexp prec emax m e l)).
Proof.
  intros Hm. unfold shr_fexp, shr.
  assert (H0 : 0 <= shr_m (shr_record_of_loc m l))
    by (destruct l as [|[]]; exact Hm).
  destruct (fexp prec emax (Zdigits2 m + e) - e); simpl; try exact H0.
  apply iter_shr_1_nonneg, H0.
Qed.

Lemma round_nearest_even_nonneg m l : 0 <= m -> 0 <= round_nearest_even m l.
Proof.
  intros Hm. destruct l as [|[]]; simpl; try lia.
  destruct (Z.even m); lia.
Qed.

Lemma binary_round_aux_number sx mx ex lx :
  0 <= mx -> is_number (binary_round_aux prec emax sx mx ex lx) = true.
Proof.
  intros Hm. unfold binary_round_aux.
  pose proof (shr_fexp_nonneg mx ex lx Hm) as H1.
  destruct (shr_fexp prec emax mx ex lx) as [mrs' e']; simpl in H1.
  pose proof (shr_fexp_nonneg _ e' loc_Exact
                (round_nearest_even_nonneg _ (loc_of_shr_record mrs') H1)) as H2.
  destruct (shr_fexp prec emax _ e' loc_Exact) as [mrs'' e'']; simpl in H2.
  destruct (shr_m mrs'') as [|m|m]; [reflexivity | | lia].
  destruct (e'' <=? emax - prec); reflexivity.
Qed.

Lemma binary_round_number s m e :
  is_number (binary_round prec emax s m e) = true.
Proof.
  unfold binary_round.
  destruct (shl_align m e _) as [mz ez].
  apply binary_round_aux_number. lia.
Qed.

Lemma round_to_number x :
  is_number x = true -> is_number (round_to prec emax x) = true.
Proof.
  destruct x as [s|s| |s m e]; simpl; try (intros H; exact H).
  intros _. apply binary_round_number.
Qed.

Lemma binary_normalize_number z e sz :
  is_number (binary_normalize prec emax z e sz) = true.
Proof.
  destruct z; simpl; [reflexivity | apply binary_round_number ..].
Qed.

Lemma SFmul_finite_number x s m e :
  is_number x = true ->
  is_number (SFmul prec emax x (S754_finite s m e)) = true.
Proof.
  destruct x as [sx|sx| |sx mx ex]; simpl; try (intros H; exact H).
  intros _. apply binary_round_aux_number. lia.
Qed.

Lemma SFdiv_finite_number x s m e :
  is_number x = true ->
  is_number (SFdiv prec emax x (S754_finite s m e)) = true.
Proof.
  destruct x as [sx|sx| |sx mx ex]; simpl; try (intros H; exact H).
  intros _. unfold SFdiv_core_binary.
  set (m' := match _ - _ with Z0 => Z.pos mx | Z.pos _ => _ | Z.neg _ => 0 end).
  assert (Hm' : 0 <= m').
  { subst m'. destruct (_ - _); [lia | | lia].
    apply Z.shiftl_nonneg. lia. }
  pose proof (Z.div_pos m' (Z.pos m) Hm' ltac:(lia)) as Hq.
  unfold Z.div in Hq.
  destruct (Z.div_eucl m' (Z.pos m)) as [q r].
  apply binary_round_aux_number, Hq.
Qed.

End RoundingFacts.

Lemma SFcompare_antisym x y :
  SFcompare y x = option_map CompOpp (SFcompare x y).
Proof.
  destruct x as [[]|[]| |[] m1 e1], y as [[]|[]| |[] m2 e2];
    simpl; try reflexivity;
    rewrite (Z.compare_antisym e1 e2);
    destruct (e1 ?= e2); simpl; try reflexivity;
    pose proof (Pos.compare_cont_antisym m1 m2 Eq) as H; simpl in H;
    rewrite <- H; destruct (Pos.compare_cont Eq m1 m2); reflexivity.
Qed.

Lemma SFcompare_number x y :
  is_number x = true -> is_number y = true -> is_Some (SFcompare x y).
Proof.
  destruct x as [[]|[]| |[] m1 e1], y as [[]|[]| |[] m2 e2];
    simpl; intros Hx Hy; try discriminate; eexists; reflexivity.
Qed.

(** On numbers, "not greater" is "less or equal". *)
Lemma not_dgt_dle x y :
  is_number x = true -> is_number y = true -> dgt x y = false -> dle x y = true.
Proof.
  intros Hx Hy. unfold dgt, dle, SFltb, SFleb.
  rewrite (SFcompare_antisym x y).
  destruct (SFcompare_number x y Hx Hy) as [c ->]; simpl.
  destruct c; simpl; congruence.
Qed.

Lemma raw_distance_number dur : is_number (raw_distance dur) = true.
Proof.
  unfold raw_distance, float_of_double.
  apply round_to_number.
  unfold ddiv, d2. apply SFdiv_finite_number.
  unfold dmul, d0_034. apply SFmul_finite_number.
  apply binary_normalize_number.
Qed.

(** ** The distance function *)

(** What [getDistance] returns, as a function of the echo width. *)
Lemma getDistance_value echo w :
  fst (getDistance echo w) =
    if to_long echo =? 0 then f20_0
    else if dgt (double_of_float (raw_distance (to_long echo))) d20_0 then f20_0
    else raw_distance (to_long echo).
Proof.
  unfold getDistance; simpl.
  destruct (to_long echo =? 0); simpl; [reflexivity|].
  destruct (dgt _ d20_0); reflexivity.
Qed.

(** ** The actuator driver *)

Lemma World_eq w1 w2 :
  gpio_out w1 = gpio_out w2 -> gpio_mode w1 = gpio_mode w2 ->
  autonomousMode w1 = autonomousMode w2 ->
  duration w1 = duration w2 -> distance w1 = distance w2 -> w1 = w2.
Proof. destruct w1, w2; simpl; congruence. Qed.

Lemma pins_distinct :
  IN1 <> IN2 /\ IN1 <> IN3 /\ IN1 <> IN4 /\ IN2 <> IN3 /\ IN2 <> IN4 /\ IN3 <> IN4
  /\ TRIG_PIN <> IN1 /\ TRIG_PIN <> IN2 /\ TRIG_PIN <> IN3 /\ TRIG_PIN <> IN4.
Proof. unfold IN1, IN2, IN3, IN4, TRIG_PIN. lia. Qed.

Ltac pins :=
  unfold forward, backward, left, right, stopCar, digitalWrite; simpl;
  rewrite ?lookup_insert;
  repeat (case_decide; try (exfalso; unfold IN1, IN2, IN3, IN4, TRIG_PIN in *; lia));
  try reflexivity.

Lemma applyCommand_outputs c w :
  outputs (applyCommand c w) =
    let '(a, b, c, d) := truth_table c in (Some a, Some b, Some c, Some d).
Proof.
  unfold outputs. destruct c; simpl; repeat f_equal; pins.
Qed.

(** A motor function touches nothing but the output latches. *)
Lemma applyCommand_frame c w :
  gpio_mode (applyCommand c w) = gpio_mode w
  /\ autonomousMode (applyCommand c w) = autonomousMode w
  /\ duration (applyCommand c w) = duration w
  /\ distance (applyCommand c w) = distance w.
Proof. destruct c; repeat split. Qed.

(** Pins other than the four direction pins keep their level. *)
Lemma applyCommand_other_pins c w q :
  q <> IN1 -> q <> IN2 -> q <> IN3 -> q <> IN4 ->
  gpio_out (applyCommand c w) !! q = gpio_out w !! q.
Proof.
  intros H1 H2 H3 H4.
  destruct c; simpl; unfold forward, backward, left, right, stopCar, digitalWrite;
    simpl; rewrite !lookup_insert; repeat case_decide; congruence.
Qed.

(** C2. Whatever the prior outputs, each drive command leaves
    (IN1, IN2, IN3, IN4) at its row of the truth table: Forward
    (low, high, low, high), Backward (high, low, high, low), Left
    (low, high, high, low), Right (high, low, low, high), Stop all low. *)
Theorem apply_truth_table (w : World) :
  outputs (applyCommand Forward w) = (Some LOW, Some HIGH, Some LOW, Some HIGH)
  /\ outputs (applyCommand Backward w) = (Some HIGH, Some LOW, Some HIGH, Some LOW)
  /\ outputs (applyCommand Left w) = (Some LOW, Some HIGH, Some HIGH, Some LOW)
  /\ outputs (applyCommand Right w) = (Some HIGH, Some LOW, Some LOW, Some HIGH)
  /\ outputs (applyCommand Stop w) = (Some LOW, Some LOW, Some LOW, Some LOW).
Proof. repeat split; apply applyCommand_outputs. Qed.

(** C4. Applying a drive command twice in a row leaves the same state,
    and in particular the same four outputs, as applying it once. *)
Theorem apply_idempotent (c : DriveCommand) (w : World) :
  applyCommand c (applyCommand c w) = applyCommand c w
  /\ outputs (applyCommand c (applyCommand c w)) = outputs (applyCommand c w).
Proof.
  assert (H : applyCommand c (applyCommand c w) = applyCommand c w).
  { apply World_eq; try (destruct c; reflexivity).
    apply map_eq; intros q.
    destruct c; simpl; unfold forward, backward, left, right, stopCar, digitalWrite;
      simpl; rewrite !lookup_insert; repeat case_decide; reflexivity. }
  split; [exact H | rewrite H; reflexivity].
Qed.

Lemma applyCommand_safe c w : no_shoot_through (applyCommand c w).
Proof.
  pose proof (applyCommand_outputs c w) as H. unfold outputs in H.
  unfold no_shoot_through, pair_ok.
  destruct c; simpl in H |- *; injection H as -> -> -> ->; tauto.
Qed.

(** The model works at the granularity of whole drive functions. Inside
    one, the four writes happen one after the other: after the first
    write of [backward] following [forward], IN1 and IN2 are both high
    until the second write lowers IN2. *)
Remark backward_first_write_after_forward w :
  outputs (digitalWrite IN1 HIGH (forward w))
  = (Some HIGH, Some HIGH, Some LOW, Some HIGH).
Proof. unfold outputs. repeat f_equal; pins. Qed.

(** ** The mode arbiter *)

(** C6. Enabling or disabling autonomous mode changes the mode flag
    and nothing else: the output latches (hence IN1..IN4), the pin
    directions and the two sensor globals are what they were. *)
Theorem mode_handlers_leave_motors (w : World) :
  (autonomousMode (fst (handleEnableAuto w)) = true
   /\ gpio_out (fst (handleEnableAuto w)) = gpio_out w
   /\ outputs (fst (handleEnableAuto w)) = outputs w
   /\ gpio_mode (fst (handleEnableAuto w)) = gpio_mode w
   /\ duration (fst (handleEnableAuto w)) = duration w
   /\ distance (fst (handleEnableAuto w)) = distance w)
  /\ (autonomousMode (fst (handleDisableAuto w)) = false
      /\ gpio_out (fst (handleDisableAuto w)) = gpio_out w
      /\ outputs (fst (handleDisableAuto w)) = outputs w
      /\ gpio_mode (fst (handleDisableAuto w)) = gpio_mode w
      /\ duration (fst (handleDisableAuto w)) = duration w
      /\ distance (fst (handleDisableAuto w)) = distance w).
Proof. repeat split. Qed.

(** C3 (as the code has it). After enabling, [isAutonomous] is true;
    after disabling, also right after an enable, it is false; enabling
    and then disabling therefore always ends in manual mode, and is a
    net no-op exactly when the mode was manual to begin with. Repeating
    the same operation changes nothing more. *)
Theorem enable_then_disable (w : World) :
  isAutonomous (fst (handleEnableAuto w)) = true
  /\ isAutonomous (fst (handleDisableAuto w)) = false
  /\ isAutonomous (fst (handleDisableAuto (fst (handleEnableAuto w)))) = false
  /\ (fst (handleDisableAuto (fst (handleEnableAuto w))) = w
      <-> isAutonomous w = false)
  /\ fst (handleEnableAuto (fst (handleEnableAuto w))) = fst (handleEnableAuto w)
  /\ fst (handleDisableAuto (fst (handleDisableAuto w))) = fst (handleDisableAuto w).
Proof.
  repeat split.
  - intros H. rewrite <- H. reflexivity.
  - intros H. apply World_eq; try reflexivity. simpl. symmetry. exact H.
Qed.

(** C3 fails as stated: from autonomous mode (reached from boot by one
    enable), enabling and then disabling changes the mode. *)
Lemma enable_then_disable_changes_autonomous :
  isAutonomous (fst (handleEnableAuto boot)) = true
  /\ isAutonomous (fst (handleDisableAuto (fst (handleEnableAuto
                     (fst (handleEnableAuto boot))))))
     <> isAutonomous (fst (handleEnableAuto boot)).
Proof. split; [reflexivity | discriminate]. Qed.

(** ** Telemetry *)

Lemma string_app_assoc (a b c : string) : (a +:+ b) +:+ c = a +:+ (b +:+ c).
Proof.
  induction a as [|x a IH]; [reflexivity|].
  change (String x ((a +:+ b) +:+ c) = String x (a +:+ (b +:+ c))).
  rewrite IH. reflexivity.
Qed.

(** [getDistance] writes the trigger pin and the two sensor globals only. *)
Lemma getDistance_frame echo w :
  autonomousMode (snd (getDistance echo w)) = autonomousMode w
  /\ gpio_mode (snd (getDistance echo w)) = gpio_mode w
  /\ (forall q, q <> TRIG_PIN ->
        gpio_out (snd (getDistance echo w)) !! q = gpio_out w !! q).
Proof.
  unfold getDistance; simpl.
  destruct (to_long echo =? 0); simpl.
  - repeat split. intros q Hq.
    rewrite !lookup_insert. repeat case_decide; congruence.
  - destruct (dgt _ d20_0); simpl; repeat split; intros q Hq;
      rewrite !lookup_insert; repeat case_decide; congruence.
Qed.

Lemma handleData_world fmt env w :
  fst (handleData fmt env w) = snd (getDistance (pulseIn env) w).
Proof.
  unfold handleData.
  destruct (getDistance (pulseIn env) w) as [dist w'].
  destruct (acceleration env) as [[ax ay] az], (gyro env) as [[gx gy] gz].
  reflexivity.
Qed.

(** The body sent for [/data] is the flat object of the specification. *)
Lemma handleData_body fmt env w :
  body (snd (handleData fmt env w)) =
    render_object (telemetry_fields fmt (fst (getDistance (pulseIn env) w))
                                    env (autonomousMode w)).
Proof.
  pose proof (getDistance_frame (pulseIn env) w) as [Hauto _].
  unfold handleData, telemetry_fields, render_object.
  destruct (getDistance (pulseIn env) w) as [dist w']. simpl in Hauto.
  destruct (acceleration env) as [[ax ay] az], (gyro env) as [[gx gy] gz].
  rewrite Hauto. cbn [body snd render_fields].
  unfold render_field, render_value. cbn [fst snd].
  rewrite !string_app_assoc. reflexivity.
Qed.

(** C5. Serving [/data] leaves the mode flag and the four direction
    outputs exactly as they were before the request. *)
Theorem handleData_read_only (fmt : spec_float -> string) (env : Sensors) (w : World) :
  autonomousMode (fst (handleData fmt env w)) = autonomousMode w
  /\ outputs (fst (handleData fmt env w)) = outputs w.
Proof.
  rewrite handleData_world.
  destruct (getDistance_frame (pulseIn env) w) as (Hauto & _ & Hpins).
  destruct pins_distinct as (_ & _ & _ & _ & _ & _ & T1 & T2 & T3 & T4).
  split; [exact Hauto|].
  unfold outputs. rewrite !Hpins by congruence. reflexivity.
Qed.

(** C7. The [/data] body is the flat object whose [ir] field is
    "Object Detected" exactly when the IR pin reads 0 and "Clear"
    otherwise (so at 1), whose [flame] field is "Flame Detected" exactly
    when the flame pin reads 0 and "No Flame" otherwise, whose [motion]
    field is "Motion Detected" exactly when the PIR pin reads 1 and
    "No Motion" otherwise, and whose [autonomous] field is "ENABLED"
    exactly when the mode flag is set and "DISABLED" otherwise. *)
Theorem telemetry_polarity (fmt : spec_float -> string) (env : Sensors) (w : World) :
  let fields := telemetry_fields fmt (fst (getDistance (pulseIn env) w))
                                 env (autonomousMode w) in
    body (snd (handleData fmt env w)) = render_object fields
    /\ status (snd (handleData fmt env w)) = 200
    /\ (field "ir" fields = Some (JStr "Object Detected") <-> digitalRead env IR_PIN = 0)
    /\ (field "ir" fields = Some (JStr "Clear") <-> digitalRead env IR_PIN <> 0)
    /\ (field "flame" fields = Some (JStr "Flame Detected") <-> digitalRead env FLAME_PIN = 0)
    /\ (field "flame" fields = Some (JStr "No Flame") <-> digitalRead env FLAME_PIN <> 0)
    /\ (field "motion" fields = Some (JStr "Motion Detected") <-> digitalRead env PIR_PIN = 1)
    /\ (field "motion" fields = Some (JStr "No Motion") <-> digitalRead env PIR_PIN <> 1)
    /\ (field "autonomous" fields = Some (JStr "ENABLED") <-> autonomousMode w = true)
    /\ (field "autonomous" fields = Some (JStr "DISABLED") <-> autonomousMode w = false).
Proof.
  intros fields. split; [apply handleData_body|].
  split.
  { unfold handleData. destruct (getDistance _ w), (acceleration env) as [[? ?] ?],
      (gyro env) as [[? ?] ?]. reflexivity. }
  subst fields. unfold telemetry_fields; cbn [field String.eqb Ascii.eqb Bool.eqb].
  repeat split;
    try (destruct (Z.eqb_spec (digitalRead env IR_PIN) 0); intros; congruence);
    try (destruct (Z.eqb_spec (digitalRead env FLAME_PIN) 0); intros; congruence);
    try (destruct (Z.eqb_spec (digitalRead env PIR_PIN) 1); intros; congruence);
    try (destruct (autonomousMode w); intros; congruence).
Qed.

(** ** The 1176 microsecond scenario *)

(** The echo widths around the cap: 1176 is the last one that passes
    through, 1177 is the first one clamped. *)
Example getDistance_1176 : fst (getDistance 1176 boot) = float_lit 19992 1000.
Proof. vm_compute. reflexivity. Qed.

Example getDistance_1177 : fst (getDistance 1177 boot) = f20_0.
Proof. vm_compute. reflexivity. Qed.

Example getDistance_timeout : fst (getDistance 0 boot) = f20_0.
Proof. vm_compute. reflexivity. Qed.

Example getDistance_longest_echo : fst (getDistance 29999 boot) = f20_0.
Proof. vm_compute. reflexivity. Qed.

Example String_2dp_cap : String_2dp f20_0 = "20.00".
Proof. vm_compute. reflexivity. Qed.

(** C9 (as the code has it). For an echo of 1176 microseconds the raw
    distance is the [float] nearest to 19.992; it is not greater than
    20.0, so [getDistance] returns it unclamped; and the [/data] response
    prints it through [String(float)], that is with two decimals, so the
    distance a client reads is 19.99. *)
Theorem echo_1176_reported (env : Sensors) (w : World) :
  pulseIn env = 1176 ->
  raw_distance 1176 = float_lit 19992 1000
  /\ dgt (double_of_float (raw_distance 1176)) d20_0 = false
  /\ fst (getDistance (pulseIn env) w) = raw_distance 1176
  /\ number_field "distance" (body (snd (handleData String_2dp env w)))
     = Some "19.99".
Proof.
  intros Hecho.
  assert (Hraw : raw_distance 1176 = float_lit 19992 1000)
    by (vm_compute; reflexivity).
  assert (Hcap : dgt (double_of_float (raw_distance 1176)) d20_0 = false)
    by (vm_compute; reflexivity).
  assert (Hget : fst (getDistance (pulseIn env) w) = raw_distance 1176).
  { rewrite getDistance_value, Hecho.
    change (to_long 1176) with 1176. rewrite Hcap. reflexivity. }
  repeat split; try assumption.
  rewrite handleData_body, Hget.
  unfold telemetry_fields.
  replace (String_2dp (raw_distance 1176)) with "19.99" by (vm_compute; reflexivity).
  reflexivity.
Qed.

Lemma echo_1176_reported_witness :
  pulseIn (quiet 1176) = 1176
  /\ number_field "distance" (body (snd (handleData String_2dp (quiet 1176) boot)))
     = Some "19.99".
Proof.
  split; [reflexivity|].
  apply (echo_1176_reported (quiet 1176) boot). reflexivity.
Defined.

(** C9 fails as stated: the distance in the response for an echo of
    1176 microseconds is the text 19.99, not 19.992. *)
Lemma echo_1176_not_reported_as_19_992 :
  number_field "distance" (body (snd (handleData String_2dp (quiet 1176) boot)))
  <> Some "19.992".
Proof. vm_compute. discriminate. Qed.

(** ** The life cycle *)

Section LifeCycle.
Variable fmt : spec_float -> string.
Variable html : string.

(** The halt loop has exactly one move, and it stays where it is. *)
Lemma step_MpuHalt m e m' :
  phase m = MpuHalt -> step fmt html m e m' -> e = Delay 10 /\ m' = m.
Proof.
  intros Hp Hs. destruct Hs; simpl in Hp; try discriminate.
  split; reflexivity.
Qed.

Lemma run_MpuHalt m tr m' :
  phase m = MpuHalt -> run fmt html m tr m' ->
  m' = m /\ Forall (fun e => e = Delay 10) tr.
Proof.
  intros Hp Hr. induction Hr as [m|m1 e m2 tr m3 Hs Hr IH].
  - split; [reflexivity | constructor].
  - destruct (step_MpuHalt _ _ _ Hp Hs) as [-> ->].
    destruct (IH Hp) as [-> Htr].
    split; [reflexivity | constructor; [reflexivity | exact Htr]].
Qed.

(** The halt loop never gets stuck: it can always take its one move. *)
Lemma MpuHalt_loops w :
  step fmt html (setup false w) (Delay 10) (setup false w).
Proof. unfold setup; simpl. constructor. Qed.

(** With a working sensor the program does reach [loop] and serves. *)
Lemma setup_ok_serves (w : World) (env : Sensors) :
  let w0 := world (setup true w) in
  run fmt html (setup true w)
      [WifiUp; Served "/data" (snd (handleData fmt env w0))]
      {| phase := Serving; world := fst (handleData fmt env w0) |}.
Proof.
  intros w0. unfold setup in *; simpl in *.
  eapply run_step; [apply step_wifi_up|].
  eapply run_step; [|apply run_done].
  pose proof (step_loop fmt html w0 (Some ("/data", env))) as Hs.
  unfold handleClient, route in Hs; simpl in Hs.
  destruct (handleData fmt env w0) as [w' r]. exact Hs.
Qed.

(** C8. When [mpu.begin()] fails, [setup] enters the halt loop and
    every execution from there stays in it: the machine never leaves
    that state, never reaches [loop], and no event of the execution is a
    served (or refused) request. *)
Theorem mpu_failure_halts (w : World) (tr : list Event) (m : Machine) :
  run fmt html (setup false w) tr m ->
  phase m = MpuHalt
  /\ m = setup false w
  /\ Forall (fun e => is_request e = false) tr.
Proof.
  intros Hr.
  assert (Hp : phase (setup false w) = MpuHalt) by reflexivity.
  destruct (run_MpuHalt _ _ _ Hp Hr) as [-> Htr].
  repeat split.
  eapply Forall_impl; [exact Htr|].
  intros e ->. reflexivity.
Qed.

End LifeCycle.

Lemma mpu_failure_halts_witness :
  run String_2dp "" (setup false boot) [Delay 10; Delay 10] (setup false boot)
  /\ phase (setup false boot) = MpuHalt.
Proof.
  assert (Hr : run String_2dp "" (setup false boot) [Delay 10; Delay 10]
                   (setup false boot)).
  { eapply run_step; [apply MpuHalt_loops|].
    eapply run_step; [apply MpuHalt_loops|]. apply run_done. }
  split; [exact Hr|].
  exact (proj1 (mpu_failure_halts String_2dp "" boot _ _ Hr)).
Defined.

(* ===================================================================== *)
(** * Further properties of the sketch                                    *)
(* ===================================================================== *)

(** ** The distance function over the whole echo range *)

Lemma to_long_small z : 0 <= z < 2 ^ 31 -> to_long z = z.
Proof.
  intros Hz. unfold to_long.
  change (2 ^ 31) with 2147483648 in *. change (2 ^ 32) with 4294967296.
  rewrite Z.mod_small; lia.
Qed.

(** *** Order of positive finite numbers *)

Lemma SFleb_positive_finite m1 e1 m2 e2 :
  SFleb (S754_finite false m1 e1) (S754_finite false m2 e2) = true
  <-> e1 < e2 \/ (e1 = e2 /\ Z.pos m1 <= Z.pos m2).
Proof.
  unfold SFleb, SFcompare.
  destruct (Z.compare_spec e1 e2) as [He|He|He].
  - change (Pos.compare_cont Eq m1 m2) with (m1 ?= m2)%positive.
    destruct (Pos.compare_spec m1 m2) as [Hm|Hm|Hm];
      split; intros H; try reflexivity; try discriminate; lia.
  - split; intros H; [lia | reflexivity].
  - split; intros H; [discriminate | lia].
Qed.

Lemma SFleb_trans x y z :
  positive_finite x = true -> positive_finite y = true ->
  positive_finite z = true ->
  SFleb x y = true -> SFleb y z = true -> SFleb x z = true.
Proof.
  destruct x as [| | |[] m1 e1], y as [| | |[] m2 e2], z as [| | |[] m3 e3];
    try discriminate.
  intros _ _ _. rewrite !SFleb_positive_finite. lia.
Qed.

Lemma SFleb_refl x : positive_finite x = true -> SFleb x x = true.
Proof.
  destruct x as [| | |[] m e]; try discriminate.
  intros _. apply SFleb_positive_finite. lia.
Qed.

Lemma positive_finite_next prev x :
  positive_finite prev = true -> SFleb prev x = true ->
  SFltb x d20_0 = true -> positive_finite x = true.
Proof.
  destruct prev as [| | |[] m e]; try discriminate.
  destruct x as [[]|[]| |[] m' e']; try discriminate; reflexivity.
Qed.

Lemma positive_finite_first x :
  SFltb (S754_zero false) x = true -> SFltb x d20_0 = true ->
  positive_finite x = true.
Proof. destruct x as [[]|[]| |[] m' e']; try discriminate; reflexivity. Qed.

(** *** What a successful pass over the table says *)

Lemma rising_spec n :
  forall prev k0,
    positive_finite prev = true -> rising prev k0 n = true ->
    (forall k, k0 <= k < k0 + Z.of_nat n ->
       positive_finite (raw_as_double k) = true
       /\ SFltb (raw_as_double k) d20_0 = true
       /\ SFleb prev (raw_as_double k) = true)
    /\ (forall a b, k0 <= a -> a <= b -> b < k0 + Z.of_nat n ->
          SFleb (raw_as_double a) (raw_as_double b) = true).
Proof.
  induction n as [|n IH]; intros prev k0 Hprev Hr.
  - split; intros; lia.
  - cbn [rising] in Hr. cbv zeta in Hr.
    apply andb_true_iff in Hr as [Hr Htl].
    apply andb_true_iff in Hr as [Hle Hlt].
    pose proof (positive_finite_next _ _ Hprev Hle Hlt) as Hx.
    destruct (IH _ _ Hx Htl) as [IH1 IH2].
    split.
    + intros k Hk. destruct (Z.eq_dec k k0) as [->|Hne]; [auto|].
      destruct (IH1 k ltac:(lia)) as (Hk1 & Hk2 & Hk3).
      repeat split; try assumption.
      apply (SFleb_trans _ (raw_as_double k0)); assumption.
    + intros a b Ha Hab Hb. destruct (Z.eq_dec a k0) as [->|Hne].
      * destruct (Z.eq_dec b k0) as [->|Hnb]; [apply SFleb_refl, Hx|].
        apply IH1. lia.
      * apply IH2; lia.
Qed.

Lemma ladder_unfold lo n :
  ladder lo n
  = SFltb (S754_zero false) (raw_as_double lo)
    && SFltb (raw_as_double lo) d20_0
    && rising (raw_as_double lo) (lo + 1) n.
Proof. reflexivity. Qed.

(** The table for echoes [1 .. 1176], checked by computation. *)
Lemma ladder_ok : ladder 1 1175 = true.
Proof. vm_compute. reflexivity. Qed.

Lemma table_spec :
  (forall k, 1 <= k <= 1176 -> below_cap k = true)
  /\ (forall a b, 1 <= a -> a <= b -> b <= 1176 ->
        SFleb (raw_as_double a) (raw_as_double b) = true).
Proof.
  pose proof ladder_ok as H. rewrite ladder_unfold in H.
  apply andb_true_iff in H as [H Htl].
  apply andb_true_iff in H as [Hpos Hlt].
  pose proof (positive_finite_first _ Hpos Hlt) as Hx.
  destruct (rising_spec _ _ _ Hx Htl) as [H1 H2]. clear Htl.
  assert (Hn : 1 + 1 + Z.of_nat 1175 = 1177) by reflexivity.
  rewrite Hn in H1, H2. clear Hn.
  split.
  - intros k Hk. unfold below_cap.
    destruct (Z.eq_dec k 1) as [->|Hne]; [rewrite Hpos, Hlt; reflexivity|].
    assert (Hk' : 1 + 1 <= k < 1177) by (clear - Hk Hne; lia).
    destruct (H1 k Hk') as (Hk1 & Hk2 & _). rewrite Hk2.
    clear - Hk1.
    destruct (raw_as_double k) as [| | |[] m e]; try discriminate; reflexivity.
  - intros a b Ha Hab Hb. destruct (Z.eq_dec a 1) as [->|Hne].
    + destruct (Z.eq_dec b 1) as [->|Hnb]; [apply SFleb_refl, Hx|].
      assert (Hb' : 1 + 1 <= b < 1177) by (clear - Hb Hnb Hab; lia).
      apply (H1 b Hb').
    + apply H2; clear - Ha Hab Hb Hne; lia.
Qed.

Lemma below_cap_range k : 1 <= k <= 1176 -> below_cap k = true.
Proof. apply table_spec. Qed.

Lemma SFltb_asym x y : SFltb x y = true -> SFltb y x = false.
Proof.
  unfold SFltb. rewrite (SFcompare_antisym x y).
  destruct (SFcompare x y) as [[]|]; simpl; congruence.
Qed.



(** ** Rounding, stage by stage *)

(** ** Digits and shifts *)

Lemma digits2_pos_bounds m :
  2 ^ (Z.pos (digits2_pos m) - 1) <= Z.pos m < 2 ^ Z.pos (digits2_pos m).
Proof.
  induction m as [m IH|m IH|]; simpl digits2_pos.
  - rewrite Pos2Z.inj_succ.
    replace (Z.succ (Z.pos (digits2_pos m)) - 1)
      with (Z.succ (Z.pos (digits2_pos m) - 1)) by lia.
    rewrite !Z.pow_succ_r by lia. lia.
  - rewrite Pos2Z.inj_succ.
    replace (Z.succ (Z.pos (digits2_pos m)) - 1)
      with (Z.succ (Z.pos (digits2_pos m) - 1)) by lia.
    rewrite !Z.pow_succ_r by lia. lia.
  - change (2 ^ (1 - 1) <= 1 < 2 ^ 1). simpl. lia.
Qed.

Lemma digits2_pos_unique m d :
  2 ^ (d - 1) <= Z.pos m < 2 ^ d -> Z.pos (digits2_pos m) = d.
Proof.
  intros [Hlo Hhi].
  pose proof (digits2_pos_bounds m) as [Hlo' Hhi'].
  assert (0 < d).
  { destruct (Z.ltb_spec 0 d) as [?|Hd]; [assumption|].
    destruct (Z.eq_dec d 0) as [->|]; [simpl in Hhi; lia|].
    rewrite Z.pow_neg_r in Hhi by lia. lia. }
  destruct (Z.lt_trichotomy (Z.pos (digits2_pos m)) d) as [Hlt|[Heq|Hgt]];
    [exfalso | exact Heq | exfalso].
  - assert (2 ^ Z.pos (digits2_pos m) <= 2 ^ (d - 1))
      by (apply Z.pow_le_mono_r; lia). lia.
  - assert (2 ^ d <= 2 ^ (Z.pos (digits2_pos m) - 1))
      by (apply Z.pow_le_mono_r; lia). lia.
Qed.

Lemma Zpos_iter_xO m j : Z.pos (Pos.iter xO m j) = Z.pos m * 2 ^ Z.pos j.
Proof.
  induction j as [|j IH] using Pos.peano_ind.
  - simpl. lia.
  - rewrite Pos.iter_succ, Pos2Z.inj_xO, IH, Pos2Z.inj_succ, Z.pow_succ_r by lia.
    lia.
Qed.

Lemma digits2_pos_iter_xO m j :
  Z.pos (digits2_pos (Pos.iter xO m j)) = Z.pos (digits2_pos m) + Z.pos j.
Proof.
  induction j as [|j IH] using Pos.peano_ind.
  - simpl. lia.
  - rewrite Pos.iter_succ. simpl digits2_pos. rewrite Pos2Z.inj_succ, IH. lia.
Qed.

Lemma shr_1_half mrs : 0 <= shr_m mrs -> shr_m (shr_1 mrs) = shr_m mrs / 2.
Proof.
  destruct mrs as [m r s].
  destruct m as [|[p|p|]|p]; cbn [shr_1 shr_m]; intros Hm; try lia;
    try reflexivity.
  - apply Z.div_unique with 1; lia.
  - apply Z.div_unique with 0; lia.
Qed.

Lemma pow2_xO p : 2 ^ Z.pos p~0 = 2 ^ Z.pos p * 2 ^ Z.pos p.
Proof.
  replace (Z.pos p~0) with (Z.pos p + Z.pos p) by lia.
  apply Z.pow_add_r; lia.
Qed.

Lemma pow2_xI p : 2 ^ Z.pos p~1 = 2 * (2 ^ Z.pos p * 2 ^ Z.pos p).
Proof.
  replace (Z.pos p~1) with (1 + (Z.pos p + Z.pos p)) by lia.
  rewrite !Z.pow_add_r by lia. reflexivity.
Qed.

Lemma iter_shr_1_div p :
  forall mrs, 0 <= shr_m mrs ->
    shr_m (SpecFloat.iter_pos shr_1 p mrs) = shr_m mrs / 2 ^ Z.pos p.
Proof.
  induction p as [p IH|p IH|]; intros mrs Hm; simpl SpecFloat.iter_pos.
  - rewrite IH by (apply iter_shr_1_nonneg, shr_1_nonneg, Hm).
    rewrite IH by (apply shr_1_nonneg, Hm).
    rewrite shr_1_half by exact Hm.
    assert (0 < 2 ^ Z.pos p) by (apply Z.pow_pos_nonneg; lia).
    rewrite !Z.div_div by lia. rewrite pow2_xI. reflexivity.
  - rewrite IH by (apply iter_shr_1_nonneg, Hm).
    rewrite IH by exact Hm.
    assert (0 < 2 ^ Z.pos p) by (apply Z.pow_pos_nonneg; lia).
    rewrite !Z.div_div by lia. rewrite pow2_xO. reflexivity.
  - rewrite shr_1_half by exact Hm. reflexivity.
Qed.

Lemma round_nearest_even_bounds m l :
  m <= round_nearest_even m l <= m + 1.
Proof. destruct l as [|[]]; simpl; try lia. destruct (Z.even m); lia. Qed.

Lemma shr_m_of_loc m l : shr_m (shr_record_of_loc m l) = m.
Proof. destruct l as [|[]]; reflexivity. Qed.

Section RoundAux.
Variables prec emax : Z.
Hypothesis Hprec : 1 < prec.

Lemma fexp_normal e :
  SpecFloat.emin prec emax <= e - prec -> fexp prec emax e = e - prec.
Proof. intros H. unfold fexp. apply Z.max_l. exact H. Qed.

Lemma shr_fexp_canonical m e :
  Z.pos (digits2_pos m) = prec -> SpecFloat.emin prec emax <= e ->
  shr_fexp prec emax (Z.pos m) e loc_Exact
  = ({| shr_m := Z.pos m; shr_r := false; shr_s := false |}, e).
Proof.
  intros Hd He. unfold shr_fexp. cbn [Zdigits2]. rewrite Hd.
  rewrite fexp_normal by lia.
  replace (prec + e - prec - e) with 0 by lia. reflexivity.
Qed.

Lemma shr_fexp_shift m e l n :
  Z.pos (digits2_pos m) = prec + Z.pos n ->
  SpecFloat.emin prec emax <= e + Z.pos n ->
  shr_fexp prec emax (Z.pos m) e l
  = (SpecFloat.iter_pos shr_1 n (shr_record_of_loc (Z.pos m) l), e + Z.pos n).
Proof.
  intros Hd He. unfold shr_fexp. cbn [Zdigits2]. rewrite Hd.
  rewrite fexp_normal by lia.
  replace (prec + Z.pos n + e - prec - e) with (Z.pos n) by lia. reflexivity.
Qed.

(** A mantissa that already has [prec] digits is returned as it is. *)
Lemma binary_round_aux_canonical s m e :
  Z.pos (digits2_pos m) = prec -> SpecFloat.emin prec emax <= e ->
  e <= emax - prec ->
  binary_round_aux prec emax s (Z.pos m) e loc_Exact = S754_finite s m e.
Proof.
  intros Hd Hlo Hhi. unfold binary_round_aux.
  rewrite (shr_fexp_canonical m e Hd Hlo). cbn [shr_m loc_of_shr_record shr_r shr_s round_nearest_even].
  rewrite (shr_fexp_canonical m e Hd Hlo). cbn [shr_m].
  apply Z.leb_le in Hhi. rewrite Hhi. reflexivity.
Qed.

(** A mantissa with [n] digits too many loses them: the result has
    [prec] digits and is the quotient by [2^n] or its successor, or the
    power of two just above when rounding carries over. *)
Lemma binary_round_aux_shift s mx ex l n :
  Z.pos (digits2_pos mx) = prec + Z.pos n ->
  SpecFloat.emin prec emax <= ex + Z.pos n ->
  ex + Z.pos n + 1 <= emax - prec ->
  exists m e,
    binary_round_aux prec emax s (Z.pos mx) ex l = S754_finite s m e
    /\ Z.pos (digits2_pos m) = prec
    /\ ((e = ex + Z.pos n
         /\ Z.pos mx / 2 ^ Z.pos n <= Z.pos m <= Z.pos mx / 2 ^ Z.pos n + 1)
        \/ (e = ex + Z.pos n + 1 /\ Z.pos m = 2 ^ (prec - 1))).
Proof.
  intros Hd Hlo Hhi. unfold binary_round_aux.
  rewrite (shr_fexp_shift mx ex l n Hd Hlo).
  set (mrs := SpecFloat.iter_pos shr_1 n (shr_record_of_loc (Z.pos mx) l)).
  assert (Hq : shr_m mrs = Z.pos mx / 2 ^ Z.pos n).
  { subst mrs. rewrite iter_shr_1_div; rewrite shr_m_of_loc; [reflexivity | lia]. }
  set (q := Z.pos mx / 2 ^ Z.pos n) in *.
  pose proof (digits2_pos_bounds mx) as [Hmlo Hmhi]. rewrite Hd in Hmlo, Hmhi.
  assert (Hpn : 0 < 2 ^ Z.pos n) by (apply Z.pow_pos_nonneg; lia).
  assert (Hqb : 2 ^ (prec - 1) <= q < 2 ^ prec).
  { subst q. split.
    - apply Z.div_le_lower_bound; [lia|].
      rewrite <- Z.pow_add_r by lia.
      replace (Z.pos n + (prec - 1)) with (prec + Z.pos n - 1) by lia. exact Hmlo.
    - apply Z.div_lt_upper_bound; [lia|].
      rewrite <- Z.pow_add_r by lia.
      replace (Z.pos n + prec) with (prec + Z.pos n) by lia. exact Hmhi. }
  pose proof (round_nearest_even_bounds (shr_m mrs) (loc_of_shr_record mrs)) as Hr.
  rewrite Hq in *.
  set (m1 := round_nearest_even q (loc_of_shr_record mrs)) in *.
  assert (Hp1 : 0 < 2 ^ (prec - 1)) by (apply Z.pow_pos_nonneg; lia).
  assert (Hpp : 2 ^ prec = 2 * 2 ^ (prec - 1)).
  { replace prec with (Z.succ (prec - 1)) at 1 by lia.
    apply Z.pow_succ_r. lia. }
  destruct m1 as [|p1|p1] eqn:Em1; [lia | | lia].
  destruct (Z.ltb_spec (Z.pos p1) (2 ^ prec)) as [Hlt|Hge].
  - assert (Hd1 : Z.pos (digits2_pos p1) = prec)
      by (apply digits2_pos_unique; lia).
    rewrite (shr_fexp_canonical p1 _ Hd1) by lia. cbn [shr_m].
    assert (Hleb : (ex + Z.pos n <=? emax - prec) = true) by (apply Z.leb_le; lia).
    rewrite Hleb. exists p1, (ex + Z.pos n).
    split; [reflexivity|]. split; [exact Hd1|]. left. split; [reflexivity | lia].
  - assert (Hp1e : Z.pos p1 = 2 ^ prec) by lia.
    assert (Hd1 : Z.pos (digits2_pos p1) = prec + 1).
    { apply digits2_pos_unique. replace (prec + 1 - 1) with prec by lia.
      rewrite Hp1e. split; [lia|].
      replace (prec + 1) with (Z.succ prec) by lia.
      rewrite Z.pow_succ_r by lia. lia. }
    rewrite (shr_fexp_shift p1 _ loc_Exact 1 Hd1) by lia.
    set (mrs2 := SpecFloat.iter_pos shr_1 1 (shr_record_of_loc (Z.pos p1) loc_Exact)).
    assert (Hq2 : shr_m mrs2 = 2 ^ (prec - 1)).
    { subst mrs2. rewrite iter_shr_1_div; rewrite shr_m_of_loc; [|lia].
      change (2 ^ 1) with 2. rewrite Hp1e, Hpp.
      rewrite Z.mul_comm, Z.div_mul by lia. reflexivity. }
    destruct (shr_m mrs2) as [|p2|p2] eqn:E2; [lia | | lia].
    assert (Hleb : (ex + Z.pos n + 1 <=? emax - prec) = true) by (apply Z.leb_le; lia).
    rewrite Hleb. exists p2, (ex + Z.pos n + 1).
    split; [reflexivity|]. split.
    + apply digits2_pos_unique. rewrite Hq2. lia.
    + right. split; [reflexivity | exact Hq2].
Qed.

(** Rounding a mantissa with [j] digits too few only shifts it left. *)
Lemma binary_round_widen s m e j :
  Z.pos (digits2_pos m) + Z.pos j = prec ->
  SpecFloat.emin prec emax <= e - Z.pos j -> e - Z.pos j <= emax - prec ->
  binary_round prec emax s m e
  = S754_finite s (Pos.iter xO m j) (e - Z.pos j).
Proof.
  intros Hd Hlo Hhi. unfold binary_round.
  rewrite fexp_normal by lia.
  replace (Z.pos (digits2_pos m) + e - prec) with (e - Z.pos j) by lia.
  unfold shl_align. replace (e - Z.pos j - e) with (Z.neg j) by lia.
  apply binary_round_aux_canonical; [|assumption..].
  rewrite digits2_pos_iter_xO. exact Hd.
Qed.

(** Rounding a mantissa with digits to spare is rounding it as it is. *)
Lemma binary_round_narrow s m e n :
  Z.pos (digits2_pos m) = prec + Z.pos n ->
  SpecFloat.emin prec emax <= e + Z.pos n ->
  binary_round prec emax s m e
  = binary_round_aux prec emax s (Z.pos m) e loc_Exact.
Proof.
  intros Hd Hlo. unfold binary_round.
  rewrite fexp_normal by lia.
  unfold shl_align.
  replace (Z.pos (digits2_pos m) + e - prec - e) with (Z.pos n) by lia.
  reflexivity.
Qed.

End RoundAux.

(** ** The stages of [duration * 0.034 / 2] on a positive duration *)

Lemma double_of_Z_pos p j :
  Z.pos (digits2_pos p) + Z.pos j = 53 ->
  double_of_Z (Z.pos p) = S754_finite false (Pos.iter xO p j) (- Z.pos j).
Proof.
  intros Hd. unfold double_of_Z, binary_normalize.
  rewrite (binary_round_widen dprec demax false p 0 j).
  - reflexivity.
  - exact Hd.
  - change (SpecFloat.emin dprec demax) with (-1074). lia.
  - unfold dprec, demax. lia.
Qed.

(** Halving a [double] only lowers its exponent. *)
Lemma ddiv_two m e :
  Z.pos (digits2_pos m) = 53 -> -1000 <= e <= 900 ->
  ddiv (S754_finite false m e) d2 = S754_finite false m (e - 1).
Proof.
  intros Hd He. unfold ddiv, d2, SFdiv, dprec, demax. cbn [xorb].
  unfold SFdiv_core_binary. cbn [Zdigits2]. rewrite Hd.
  change (Z.pos (digits2_pos 4503599627370496)) with 53.
  rewrite (fexp_normal 53 1024)
    by (change (SpecFloat.emin 53 1024) with (-1074); lia).
  replace (Z.min (53 + e - (53 + -51) - 53) (e - -51)) with (e - 2) by lia.
  replace (e - -51 - (e - 2)) with 53 by lia.
  assert (Hdiv : Z.div_eucl (Z.shiftl (Z.pos m) 53) 4503599627370496
                 = (Z.pos m~0, 0)).
  { rewrite Z.shiftl_mul_pow2 by lia. change (2 ^ 53) with 9007199254740992.
    pose proof (Z_div_mod (Z.pos m * 9007199254740992) 4503599627370496
                  ltac:(lia)) as H.
    destruct (Z.div_eucl _ _) as [q r]. f_equal; lia. }
  rewrite Hdiv. change (new_location 4503599627370496 0) with loc_Exact.
  unfold binary_round_aux.
  rewrite (shr_fexp_shift 53 1024 (m~0) (e - 2) loc_Exact 1)
    by (cbn [digits2_pos]; rewrite ?Pos2Z.inj_succ, ?Hd;
        change (SpecFloat.emin 53 1024) with (-1074); lia).
  cbn [SpecFloat.iter_pos shr_record_of_loc shr_1 orb shr_m loc_of_shr_record
       round_nearest_even].
  rewrite (shr_fexp_canonical 53 1024 m (e - 2 + 1) Hd)
    by (change (SpecFloat.emin 53 1024) with (-1074); lia).
  cbn [shr_m].
  replace (e - 2 + 1 <=? 1024 - 53) with true by (symmetry; apply Z.leb_le; lia).
  f_equal. lia.
Qed.

Lemma dgt_20 m e :
  -48 < e \/ (e = -48 /\ 5629499534213120 < Z.pos m) ->
  dgt (S754_finite false m e) d20_0 = true.
Proof.
  intros H. unfold dgt, d20_0, SFltb, SFcompare.
  destruct H as [H|[-> H]].
  - apply Z.compare_lt_iff in H. rewrite H. reflexivity.
  - rewrite Z.compare_refl.
    change (Pos.compare_cont Eq 5629499534213120 m)
      with (5629499534213120 ?= m)%positive.
    apply Pos.compare_lt_iff in H. rewrite H. reflexivity.
Qed.

Lemma digits2_pos_range p :
  1177 <= Z.pos p < 2 ^ 31 -> 11 <= Z.pos (digits2_pos p) <= 31.
Proof.
  intros [Hlo Hhi].
  pose proof (digits2_pos_bounds p) as [Hdlo Hdhi].
  split.
  - destruct (Z.ltb_spec (Z.pos (digits2_pos p)) 11) as [Hlt|]; [exfalso | assumption].
    assert (2 ^ Z.pos (digits2_pos p) <= 2 ^ 10) by (apply Z.pow_le_mono_r; lia).
    change (2 ^ 10) with 1024 in *. lia.
  - destruct (Z.ltb_spec 31 (Z.pos (digits2_pos p))) as [Hlt|]; [exfalso | assumption].
    assert (2 ^ 31 <= 2 ^ (Z.pos (digits2_pos p) - 1))
      by (apply Z.pow_le_mono_r; lia).
    lia.
Qed.

(** For a duration of 1177 or more the raw distance is above the cap. *)
Lemma raw_distance_above_cap k :
  1177 <= k < 2 ^ 31 -> dgt (double_of_float (raw_distance k)) d20_0 = true.
Proof.
  intros Hk. destruct k as [|p|p]; try lia.
  pose proof (digits2_pos_range p Hk) as Hd.
  pose proof (digits2_pos_bounds p) as Hpb.
  set (j := Z.to_pos (53 - Z.pos (digits2_pos p))).
  assert (Hj : Z.pos j = 53 - Z.pos (digits2_pos p))
    by (subst j; rewrite Z2Pos.id; lia).
  clearbody j.
  unfold raw_distance, float_of_double, double_of_float, dmul, d0_034, round_to.
  rewrite (double_of_Z_pos p j) by lia.
  set (mz := Pos.iter xO p j).
  assert (Hmzd : Z.pos (digits2_pos mz) = 53)
    by (subst mz; rewrite digits2_pos_iter_xO; lia).
  assert (Hmzv : Z.pos mz = Z.pos p * 2 ^ Z.pos j) by apply Zpos_iter_xO.
  pose proof (digits2_pos_bounds mz) as Hmzb. rewrite Hmzd in Hmzb.
  change (2 ^ (53 - 1)) with 4503599627370496 in Hmzb.
  change (2 ^ 53) with 9007199254740992 in Hmzb.
  (* the product *)
  unfold dprec, demax, fprec, femax in *. cbn [SFmul xorb].
  set (P := (mz * 4899916394579100)%positive).
  assert (HP : Z.pos P = Z.pos mz * 4899916394579100) by (subst P; lia).
  assert (exists n : positive,
            Z.pos (digits2_pos P) = 53 + Z.pos n
            /\ ((n = 52%positive /\ Z.pos P < 2 ^ 105)
                \/ (n = 53%positive /\ 2 ^ 105 <= Z.pos P))) as (n & HPd & Hn).
  { destruct (Z.ltb_spec (Z.pos P) (2 ^ 105)) as [Hlt|Hge].
    - exists 52%positive. split; [|left; split; [reflexivity | exact Hlt]].
      apply digits2_pos_unique.
      change (2 ^ (53 + 52 - 1)) with 20282409603651670423947251286016.
      change (2 ^ (53 + 52)) with (2 ^ 105). lia.
    - exists 53%positive. split; [|right; split; [reflexivity | exact Hge]].
      apply digits2_pos_unique.
      change (2 ^ (53 + 53 - 1)) with (2 ^ 105).
      change (2 ^ (53 + 53)) with 81129638414606681695789005144064. lia. }
  destruct (binary_round_aux_shift 53 1024 ltac:(lia)
              false P (- Z.pos j + -57) loc_Exact n HPd)
    as (mb & eb & Eb & Hmbd & Hb).
  { change (SpecFloat.emin 53 1024) with (-1074). lia. }
  { lia. }
  rewrite Eb.
  (* the halving *)
  rewrite (ddiv_two mb eb Hmbd) by lia.
  (* the conversion to float *)
  rewrite (binary_round_narrow 24 128 false mb (eb - 1) 29)
    by (try change (SpecFloat.emin 24 128) with (-149); lia).
  destruct (binary_round_aux_shift 24 128 ltac:(lia)
              false mb (eb - 1) loc_Exact 29)
    as (mf & ef & Ef & Hmfd & Hf).
  { lia. }
  { change (SpecFloat.emin 24 128) with (-149). lia. }
  { lia. }
  rewrite Ef.
  (* back to double for the comparison *)
  rewrite (binary_round_widen 53 1024 false mf ef 29)
    by (try change (SpecFloat.emin 53 1024) with (-1074); lia).
  apply dgt_20. rewrite Zpos_iter_xO.
  change (2 ^ 29) with 536870912 in *.
  change (2 ^ 105) with 40564819207303340847894502572032 in *.
  change (2 ^ (53 - 1)) with 4503599627370496 in *.
  change (2 ^ (24 - 1)) with 8388608 in *.
  destruct (Z.eq_dec (Z.pos (digits2_pos p)) 11) as [E11|N11].
  - assert (j = 42%positive) by lia. subst j.
    change (2 ^ 42) with 4398046511104 in *.
    destruct Hn as [[-> Hn]|[-> Hn]].
    + change (2 ^ 52) with 4503599627370496 in *.
      assert (H1 : 25364420859966643916675796172800 <= Z.pos P) by lia.
      apply (Z.div_le_mono _ _ 4503599627370496 ltac:(lia)) in H1.
      change (25364420859966643916675796172800 / 4503599627370496)
        with 5632032809003516 in H1.
      destruct Hb as [[-> Hb]|[-> Hb]]; [|lia].
      assert (H2 : 5632032809003516 <= Z.pos mb) by lia.
      apply (Z.div_le_mono _ _ 536870912 ltac:(lia)) in H2.
      change (5632032809003516 / 536870912) with 10490478 in H2.
      lia.
    + lia.
  - destruct Hn as [[-> Hn]|[-> Hn]]; lia.
Qed.

(** X2. An echo of 1177 microseconds or more (up to the largest value a
    [long] holds, so in particular up to the 30000 microsecond time-out
    of [pulseIn]) is always reported as exactly 20.0. *)
Theorem getDistance_clamps_above_cap (echo : Z) (w : World) :
  1177 <= echo < 2 ^ 31 ->
  fst (getDistance echo w) = f20_0.
Proof.
  intros Hecho.
  rewrite getDistance_value, to_long_small by lia.
  destruct (Z.eqb_spec echo 0); [lia|].
  rewrite (raw_distance_above_cap echo Hecho). reflexivity.
Qed.

Lemma getDistance_clamps_above_cap_witness :
  fst (getDistance 30000 boot) = f20_0.
Proof.
  apply (getDistance_clamps_above_cap 30000 boot).
  change (2 ^ 31) with 2147483648. lia.
Defined.

(** Whatever the echo, the result is a number not above the cap. *)
Lemma getDistance_le_cap echo w :
  dle (double_of_float (fst (getDistance echo w))) d20_0 = true.
Proof.
  rewrite getDistance_value.
  destruct (to_long echo =? 0); [reflexivity|].
  destruct (dgt _ d20_0) eqn:Hgt; [reflexivity|].
  apply not_dgt_dle; [| reflexivity | exact Hgt].
  apply round_to_number, raw_distance_number.
Qed.

Lemma getDistance_below_cap_value echo w :
  1 <= echo <= 1176 -> fst (getDistance echo w) = raw_distance echo.
Proof.
  intros Hecho.
  pose proof (below_cap_range echo Hecho) as Hchk. unfold below_cap in Hchk.
  apply andb_true_iff in Hchk as [_ Hlt]. unfold raw_as_double in Hlt.
  rewrite getDistance_value, to_long_small
    by (change (2 ^ 31) with 2147483648; lia).
  destruct (Z.eqb_spec echo 0); [lia|].
  unfold dgt. rewrite (SFltb_asym _ _ Hlt). reflexivity.
Qed.

(** X3. A longer echo never reads as a shorter distance: over all echo
    widths that are not a time-out, the returned distance is
    non-decreasing in the echo width. *)
Theorem getDistance_monotone (a b : Z) (w1 w2 : World) :
  1 <= a -> a <= b -> b < 2 ^ 31 ->
  dle (double_of_float (fst (getDistance a w1)))
      (double_of_float (fst (getDistance b w2))) = true.
Proof.
  intros Ha Hab Hb.
  destruct (Z.le_gt_cases b 1176) as [Hsmall|Hbig].
  - rewrite !getDistance_below_cap_value by lia.
    apply table_spec; assumption.
  - assert (Hb' : 1177 <= b < 2 ^ 31) by lia.
    replace (fst (getDistance b w2)) with f20_0.
    + apply getDistance_le_cap.
    + rewrite getDistance_value, to_long_small by lia.
      destruct (Z.eqb_spec b 0); [lia|].
      rewrite (raw_distance_above_cap b Hb'). reflexivity.
Qed.

Lemma getDistance_monotone_witness :
  dle (double_of_float (fst (getDistance 300 boot)))
      (double_of_float (fst (getDistance 900 (forward boot)))) = true.
Proof.
  apply (getDistance_monotone 300 900 boot (forward boot)); lia.
Defined.

(** *** The raw distance against the exact value *)

Lemma all_from_spec lo n P :
  all_from lo n P = true ->
  forall k, lo <= k < lo + Z.of_nat n -> P k = true.
Proof.
  unfold all_from. intros Hall k Hk.
  rewrite List.forallb_forall in Hall.
  replace k with (lo + Z.of_nat (Z.to_nat (k - lo))) by lia.
  apply Hall, List.in_seq. lia.
Qed.

Lemma same_float_eq x y : same_float x y = true -> x = y.
Proof.
  destruct x as [a|a| |a m e], y as [b|b| |b m' e']; simpl; try discriminate;
    try reflexivity.
  - intros H. apply Bool.eqb_prop in H. congruence.
  - intros H. apply Bool.eqb_prop in H. congruence.
  - intros H. apply andb_true_iff in H as [H He].
    apply andb_true_iff in H as [Hs Hm].
    apply Bool.eqb_prop in Hs. apply Pos.eqb_eq in Hm. apply Z.eqb_eq in He.
    congruence.
Qed.

(** Durations [1 .. 1176], checked one by one. *)
Lemma reference_ok : all_from 1 (Z.to_nat 1176) reference_at = true.
Proof. vm_compute. reflexivity. Qed.

Lemma reference_range k :
  1 <= k <= 1176 ->
  raw_distance k = float_lit (17 * k) 1000
  /\ nearest_float (raw_distance k) (17 * k) 1000 = true.
Proof.
  intros Hk.
  assert (H : reference_at k = true)
    by (apply (all_from_spec _ _ _ reference_ok); lia).
  unfold reference_at in H. apply andb_true_iff in H as [H1 H2].
  split; [apply same_float_eq, H1 | exact H2].
Qed.

(** C1. On a time-out ([pulseIn] returns 0) the distance is the sentinel
    20.0. Otherwise it is [duration * 0.034 / 2] capped at 20.0: while
    the exact value [17 * duration / 1000] is at most 20 (durations up
    to 1176) the result is the [float] nearest to it, within half a unit
    in the last place; once the exact value exceeds 20 (durations from
    1177) the result is exactly 20.0. So for every echo width the
    returned distance is a number less than or equal to 20.0. *)
Theorem getDistance_capped (echo : Z) (w : World) :
  (echo = 0 -> fst (getDistance echo w) = f20_0)
  /\ (0 < echo -> 17 * echo <= 20000 ->
      fst (getDistance echo w) = float_lit (17 * echo) 1000
      /\ nearest_float (fst (getDistance echo w)) (17 * echo) 1000 = true)
  /\ (20000 < 17 * echo -> echo < 2 ^ 31 ->
      fst (getDistance echo w) = f20_0)
  /\ f20_0 = float_lit 20 1
  /\ dle (double_of_float (fst (getDistance echo w))) d20_0 = true.
Proof.
  split; [intros ->; reflexivity|].
  split.
  { intros Hpos Hle.
    assert (Hr : 1 <= echo <= 1176) by lia.
    rewrite (getDistance_below_cap_value echo w Hr).
    apply reference_range, Hr. }
  split.
  { intros Hgt Hlt.
    assert (Hr : 1177 <= echo < 2 ^ 31) by lia.
    rewrite getDistance_value, to_long_small by lia.
    destruct (Z.eqb_spec echo 0); [lia|].
    rewrite (raw_distance_above_cap echo Hr). reflexivity. }
  split; [vm_compute; reflexivity | apply getDistance_le_cap].
Qed.

(** What [getDistance] leaves behind: the trigger pin is low, the
    global [duration] holds the echo width, and the global [distance]
    holds the returned value, except after a time-out, where 20.0 is
    returned but the global keeps the value of the previous
    measurement. *)
Lemma getDistance_globals (echo : Z) (w : World) :
  gpio_out (snd (getDistance echo w)) !! TRIG_PIN = Some LOW
  /\ duration (snd (getDistance echo w)) = to_long echo
  /\ (to_long echo = 0 -> distance (snd (getDistance echo w)) = distance w)
  /\ (to_long echo <> 0 ->
      distance (snd (getDistance echo w)) = fst (getDistance echo w)).
Proof.
  unfold getDistance; simpl.
  destruct (Z.eqb_spec (to_long echo) 0) as [H0|H0]; simpl.
  - repeat split; try (intros; congruence). apply lookup_insert_eq.
  - destruct (dgt _ d20_0); simpl; repeat split; try (intros; congruence);
      apply lookup_insert_eq.
Qed.

(** After a time-out the two disagree: the stale global is not 20.0. *)
Example getDistance_timeout_stale :
  let w1 := snd (getDistance 600 boot) in
  fst (getDistance 0 w1) = f20_0
  /\ distance (snd (getDistance 0 w1)) = raw_distance 600
  /\ raw_distance 600 <> f20_0.
Proof. vm_compute. repeat split. discriminate. Qed.

(** ** How the operations compose *)

(** X4. A drive command overwrites whatever the previous one left: the
    state after two commands in a row is the state after the second
    alone. *)
Theorem apply_absorbs (c1 c2 : DriveCommand) (w : World) :
  applyCommand c2 (applyCommand c1 w) = applyCommand c2 w.
Proof.
  apply World_eq; try (destruct c1, c2; reflexivity).
  apply map_eq; intros q.
  destruct c1, c2; simpl;
    unfold forward, backward, left, right, stopCar, digitalWrite; simpl;
    rewrite !lookup_insert; repeat case_decide; reflexivity.
Qed.

(** X5. Driving, switching the mode and measuring the distance do not
    interfere: any two of them give the same state in either order. *)
Theorem operations_commute (c : DriveCommand) (b : bool) (echo : Z) (w : World) :
  set_autonomousMode b (applyCommand c w) = applyCommand c (set_autonomousMode b w)
  /\ snd (getDistance echo (applyCommand c w))
     = applyCommand c (snd (getDistance echo w))
  /\ snd (getDistance echo (set_autonomousMode b w))
     = set_autonomousMode b (snd (getDistance echo w)).
Proof.
  split; [destruct c; reflexivity|]. split.
  - unfold getDistance; simpl.
    assert (Hf : forall c w, autonomousMode (applyCommand c w) = autonomousMode w
                 /\ gpio_mode (applyCommand c w) = gpio_mode w
                 /\ duration (applyCommand c w) = duration w
                 /\ distance (applyCommand c w) = distance w)
      by (intros [] ?; repeat split).
    destruct (to_long echo =? 0); [|destruct (dgt _ d20_0)]; simpl;
      (apply World_eq; try (destruct c; reflexivity);
       apply map_eq; intros q;
       destruct c; simpl;
       unfold forward, backward, left, right, stopCar, digitalWrite; simpl;
       rewrite !lookup_insert; repeat case_decide; try reflexivity;
       exfalso; unfold IN1, IN2, IN3, IN4, TRIG_PIN in *; lia).
  - unfold getDistance; simpl.
    destruct (to_long echo =? 0); [|destruct (dgt _ d20_0)]; reflexivity.
Qed.

(** ** Dispatching a request *)

(** [handleData] writes the trigger pin and two sensor globals only. *)
Lemma handleData_read_only_aux fmt env w :
  autonomousMode (fst (handleData fmt env w)) = autonomousMode w
  /\ outputs (fst (handleData fmt env w)) = outputs w
  /\ gpio_mode (fst (handleData fmt env w)) = gpio_mode w.
Proof.
  rewrite handleData_world.
  destruct (getDistance_frame (pulseIn env) w) as (Hauto & Hmode & Hpins).
  destruct pins_distinct as (_ & _ & _ & _ & _ & _ & T1 & T2 & T3 & T4).
  repeat split; try assumption.
  unfold outputs. rewrite !Hpins by congruence. reflexivity.
Qed.

Section Dispatch.
Variable fmt : spec_float -> string.
Variable html : string.

(** Everything [server.handleClient()] can do, by kind of request. *)
Lemma handleClient_cases pending w :
  (pending = None /\ handleClient fmt html pending w = (w, Idle))
  \/ (exists path env, pending = Some (path, env) /\ (path ∉ registered)
        /\ handleClient fmt html pending w = (w, NotFound path))
  \/ (exists env, pending = Some ("/", env)
        /\ handleClient fmt html pending w
           = (w, Served "/" (snd (handleRoot html w))))
  \/ (exists env, pending = Some ("/data", env)
        /\ handleClient fmt html pending w
           = (fst (handleData fmt env w), Served "/data" (snd (handleData fmt env w))))
  \/ (exists c env, pending = Some (path_of_command c, env)
        /\ handleClient fmt html pending w
           = (applyCommand c w, Served (path_of_command c) redirect))
  \/ (exists env, pending = Some ("/enableAuto", env)
        /\ handleClient fmt html pending w
           = (set_autonomousMode true w, Served "/enableAuto" redirect))
  \/ (exists env, pending = Some ("/disableAuto", env)
        /\ handleClient fmt html pending w
           = (set_autonomousMode false w, Served "/disableAuto" redirect)).
Proof.
  destruct pending as [[path env]|]; [|left; split; reflexivity].
  right. unfold handleClient, route.
  destruct (String.eqb_spec path "/") as [->|H1].
  { right; left. exists env. split; reflexivity. }
  destruct (String.eqb_spec path "/data") as [->|H2].
  { right; right; left. exists env. split; [reflexivity|].
    destruct (handleData fmt env w); reflexivity. }
  destruct (String.eqb_spec path "/forward") as [->|H3].
  { do 3 right; left. exists Forward, env. split; reflexivity. }
  destruct (String.eqb_spec path "/backward") as [->|H4].
  { do 3 right; left. exists Backward, env. split; reflexivity. }
  destruct (String.eqb_spec path "/left") as [->|H5].
  { do 3 right; left. exists Left, env. split; reflexivity. }
  destruct (String.eqb_spec path "/right") as [->|H6].
  { do 3 right; left. exists Right, env. split; reflexivity. }
  destruct (String.eqb_spec path "/stop") as [->|H7].
  { do 3 right; left. exists Stop, env. split; reflexivity. }
  destruct (String.eqb_spec path "/enableAuto") as [->|H8].
  { do 4 right; left. exists env. split; reflexivity. }
  destruct (String.eqb_spec path "/disableAuto") as [->|H9].
  { do 5 right. exists env. split; reflexivity. }
  left. exists path, env. split; [reflexivity|]. split; [|reflexivity].
  unfold registered. rewrite !elem_of_cons, elem_of_nil. tauto.
Qed.

(** X6. Each registered path is answered by its own handler, as the
    [server.on] lines pair them, and a request for any path that is not
    one of the nine is answered by the framework and changes nothing. *)
Theorem routes_reach_their_handlers (path : string) (env : Sensors) (w : World) :
  let answered p (h : World * Response) :=
    handleClient fmt html (Some (p, env)) w = (fst h, Served p (snd h)) in
  answered "/" (handleRoot html w)
  /\ answered "/data" (handleData fmt env w)
  /\ answered "/forward" (handleForward w)
  /\ answered "/backward" (handleBackward w)
  /\ answered "/left" (handleLeft w)
  /\ answered "/right" (handleRight w)
  /\ answered "/stop" (handleStop w)
  /\ answered "/enableAuto" (handleEnableAuto w)
  /\ answered "/disableAuto" (handleDisableAuto w)
  /\ (path ∉ ["/"; "/data"; "/forward"; "/backward"; "/left"; "/right";
                "/stop"; "/enableAuto"; "/disableAuto"] ->
      handleClient fmt html (Some (path, env)) w = (w, NotFound path)).
Proof.
  cbv zeta.
  repeat (split;
          [first [ reflexivity
                 | unfold handleClient, route; cbn [String.eqb Ascii.eqb Bool.eqb];
                   destruct (handleData fmt env w); reflexivity ] |]).
  intros Hn.
  destruct (handleClient_cases (Some (path, env)) w)
    as [[H _]|[(p & e & H & _ & E)|[(e & H & E)|[(e & H & E)|[(c & e & H & E)
       |[(e & H & E)|(e & H & E)]]]]]];
    try discriminate; injection H as -> ->; try exact E;
    exfalso; apply Hn; try destruct c; simpl;
    rewrite !elem_of_cons; tauto.
Qed.

(** X7. Each movement path runs its own motor function, whatever the
    mode flag says: the four outputs become the row of the truth table,
    the flag is left alone, and the reply is a 303 redirect to the
    dashboard with an empty body. *)
Theorem movement_route (c : DriveCommand) (env : Sensors) (w : World) :
  let res := handleClient fmt html (Some (path_of_command c, env)) w in
  fst res = applyCommand c w
  /\ outputs (fst res) = lift4 (truth_table c)
  /\ autonomousMode (fst res) = autonomousMode w
  /\ snd res = Served (path_of_command c)
                 {| status := 303; content_type := None;
                    headers := [("Location", "/")]; body := "" |}.
Proof.
  assert (E : handleClient fmt html (Some (path_of_command c, env)) w
              = (applyCommand c w, Served (path_of_command c) redirect))
    by (destruct c; reflexivity).
  intros res. subst res. rewrite E. simpl. repeat split.
  - apply applyCommand_outputs.
  - destruct c; reflexivity.
Qed.

(** The effect of one request on the flag, the outputs and the pin
    directions, read off the event it shows. *)
Lemma handleClient_effect pending w :
  autonomousMode (fst (handleClient fmt html pending w))
    = mode_step (snd (handleClient fmt html pending w)) (autonomousMode w)
  /\ outputs (fst (handleClient fmt html pending w))
     = outputs_step (snd (handleClient fmt html pending w)) (outputs w)
  /\ gpio_mode (fst (handleClient fmt html pending w)) = gpio_mode w.
Proof.
  destruct (handleClient_cases pending w)
    as [[H E]|[(p & e & H & Hn & E)|[(e & H & E)|[(e & H & E)|[(c & e & H & E)
       |[(e & H & E)|(e & H & E)]]]]]]; rewrite E; simpl.
  - repeat split.
  - repeat split.
  - repeat split.
  - destruct (handleData_read_only_aux fmt e w) as (Ha & Ho & Hm).
    repeat split; assumption.
  - split; [destruct c; reflexivity|]. split.
    + rewrite applyCommand_outputs. destruct c; reflexivity.
    + destruct c; reflexivity.
  - repeat split.
  - repeat split.
Qed.

(** X8. Only [/enableAuto] and [/disableAuto] can change the operating
    mode: a request for any other path, whatever the sensors read,
    leaves the flag as it was. *)
Theorem only_mode_routes_change_mode (path : string) (env : Sensors) (w : World) :
  path <> "/enableAuto" -> path <> "/disableAuto" ->
  autonomousMode (fst (handleClient fmt html (Some (path, env)) w))
  = autonomousMode w.
Proof.
  intros He Hd.
  destruct (handleClient_effect (Some (path, env)) w) as (Hm & _ & _).
  rewrite Hm.
  destruct (handleClient_cases (Some (path, env)) w)
    as [[H _]|[(p & e & H & Hn & E)|[(e & H & E)|[(e & H & E)|[(c & e & H & E)
       |[(e & H & E)|(e & H & E)]]]]]];
    try discriminate; injection H as -> ->; rewrite E; simpl;
    try reflexivity; try congruence.
  destruct c; reflexivity.
Qed.

(** X9. Only the five movement paths can change the direction outputs:
    a request for any other path leaves IN1..IN4 as they were. *)
Theorem only_movement_routes_change_outputs
    (path : string) (env : Sensors) (w : World) :
  command_of_path path = None ->
  outputs (fst (handleClient fmt html (Some (path, env)) w)) = outputs w.
Proof.
  intros Hc.
  destruct (handleClient_effect (Some (path, env)) w) as (_ & Ho & _).
  rewrite Ho.
  destruct (handleClient_cases (Some (path, env)) w)
    as [[H _]|[(p & e & H & Hn & E)|[(e & H & E)|[(e & H & E)|[(c & e & H & E)
       |[(e & H & E)|(e & H & E)]]]]]];
    try discriminate; injection H as -> ->; rewrite E; simpl;
    try reflexivity; try (rewrite Hc; reflexivity).
Qed.

Lemma handleClient_other_pins pending w q :
  q <> IN1 -> q <> IN2 -> q <> IN3 -> q <> IN4 -> q <> TRIG_PIN ->
  gpio_out (fst (handleClient fmt html pending w)) !! q = gpio_out w !! q.
Proof.
  intros H1 H2 H3 H4 H5.
  destruct (handleClient_cases pending w)
    as [[H E]|[(p & e & H & Hn & E)|[(e & H & E)|[(e & H & E)|[(c & e & H & E)
       |[(e & H & E)|(e & H & E)]]]]]]; rewrite E; simpl; try reflexivity.
  - rewrite handleData_world. apply getDistance_frame, H5.
  - apply applyCommand_other_pins; assumption.
Qed.

(** X10. The sketch's own code never calls [pinMode] while it handles
    a request, and its own [digitalWrite] calls during a request touch
    no pin other than IN1..IN4 and the ultrasonic trigger. (What the
    sensor libraries do to their own lines, the DHT data pin and the
    I2C bus, is not part of the sketch and is not modelled.) *)
Theorem requests_write_five_pins
    (pending : option (string * Sensors)) (w : World) (q : Z) :
  gpio_mode (fst (handleClient fmt html pending w)) = gpio_mode w
  /\ (q <> IN1 -> q <> IN2 -> q <> IN3 -> q <> IN4 -> q <> TRIG_PIN ->
      gpio_out (fst (handleClient fmt html pending w)) !! q = gpio_out w !! q).
Proof.
  split; [apply handleClient_effect | apply handleClient_other_pins].
Qed.

(** X11. What a client gets back: the dashboard and the telemetry are
    answered with 200 and their content type, and every other registered
    path, movement or mode, with the same 303 redirect to [/]. *)
Theorem response_kinds (path : string) (env : Sensors) (w : World) (r : Response) :
  snd (handleClient fmt html (Some (path, env)) w) = Served path r ->
  (path = "/" /\ status r = 200 /\ content_type r = Some "text/html"
   /\ body r = html)
  \/ (path = "/data" /\ status r = 200
      /\ content_type r = Some "application/json" /\ headers r = [])
  \/ (path <> "/" /\ path <> "/data" /\ status r = 303
      /\ headers r = [("Location", "/")] /\ body r = "").
Proof.
  destruct (handleClient_cases (Some (path, env)) w)
    as [[H _]|[(p & e & H & Hn & E)|[(e & H & E)|[(e & H & E)|[(c & e & H & E)
       |[(e & H & E)|(e & H & E)]]]]]];
    try discriminate; injection H as -> ->; rewrite E; simpl;
    intros Hr; try discriminate; injection Hr as <-.
  - left. repeat split.
  - right; left. split; [reflexivity|].
    unfold handleData.
    destruct (getDistance _ w), (acceleration e) as [[? ?] ?],
      (gyro e) as [[? ?] ?]. repeat split.
  - right; right. destruct c; repeat split; discriminate.
  - right; right. repeat split; discriminate.
  - right; right. repeat split; discriminate.
Qed.

End Dispatch.

Lemma response_kinds_witness :
  "/stop" <> "/" /\ status redirect = 303.
Proof.
  destruct (response_kinds String_2dp dashboard_page "/stop" (quiet 0) boot
              redirect eq_refl)
    as [(H & _)|[(H & _)|(H1 & _ & H3 & _)]]; try discriminate.
  split; assumption.
Defined.

Lemma only_mode_routes_change_mode_witness :
  autonomousMode (fst (handleClient String_2dp dashboard_page
                         (Some ("/forward", quiet 600))
                         (set_autonomousMode true boot)))
  = true.
Proof.
  apply (only_mode_routes_change_mode String_2dp dashboard_page
           "/forward" (quiet 600) (set_autonomousMode true boot));
    discriminate.
Defined.

Lemma only_movement_routes_change_outputs_witness :
  outputs (fst (handleClient String_2dp dashboard_page
                  (Some ("/data", quiet 600)) (forward boot)))
  = outputs (forward boot).
Proof.
  apply (only_movement_routes_change_outputs String_2dp dashboard_page
           "/data" (quiet 600) (forward boot)).
  reflexivity.
Defined.

(** X12. The [/data] response is a function of the sensor readings and
    the mode flag alone: it does not depend on the motor outputs or on
    earlier measurements, so asking twice with the same readings gives
    the same response. *)
Theorem telemetry_depends_on_mode_only
    (fmt : spec_float -> string) (env : Sensors) (w1 w2 : World) :
  (autonomousMode w1 = autonomousMode w2 ->
   snd (handleData fmt env w1) = snd (handleData fmt env w2))
  /\ snd (handleData fmt env (fst (handleData fmt env w1)))
     = snd (handleData fmt env w1).
Proof.
  assert (H : forall a b, autonomousMode a = autonomousMode b ->
                snd (handleData fmt env a) = snd (handleData fmt env b)).
  { intros a b Hab.
    assert (Hb : forall w, snd (handleData fmt env w)
                 = {| status := 200; content_type := Some "application/json";
                      headers := []; body := body (snd (handleData fmt env w)) |}).
    { intros w. unfold handleData.
      destruct (getDistance _ w), (acceleration env) as [[? ?] ?],
        (gyro env) as [[? ?] ?]. reflexivity. }
    rewrite (Hb a), (Hb b), !handleData_body, !getDistance_value, Hab.
    reflexivity. }
  split; [apply H|].
  apply H. apply handleData_read_only_aux.
Qed.

(** ** setup() and what every execution keeps *)

(** Reading the pin tables back after a write or a configuration. *)
Lemma gpio_out_digitalWrite p v w q :
  gpio_out (digitalWrite p v w) !! q
  = if decide (p = q) then Some v else gpio_out w !! q.
Proof. unfold digitalWrite; cbn [gpio_out]. apply lookup_insert. Qed.

Lemma gpio_mode_pinMode p md w q :
  gpio_mode (pinMode p md w) !! q
  = if decide (p = q) then Some md else gpio_mode w !! q.
Proof. unfold pinMode; cbn [gpio_mode]. apply lookup_insert. Qed.

Lemma gpio_mode_digitalWrite p v w : gpio_mode (digitalWrite p v w) = gpio_mode w.
Proof. reflexivity. Qed.

Lemma gpio_out_pinMode p md w : gpio_out (pinMode p md w) = gpio_out w.
Proof. reflexivity. Qed.

Ltac pin_tables :=
  unfold setup_pins, stopCar;
  cbv zeta;
  rewrite ?gpio_mode_digitalWrite, ?gpio_out_pinMode,
    ?gpio_out_digitalWrite, ?gpio_mode_pinMode,
    ?gpio_mode_digitalWrite, ?gpio_out_pinMode;
  repeat (case_decide;
          try (exfalso;
               unfold IN1, IN2, IN3, IN4, TRIG_PIN, ECHO_PIN, IR_PIN,
                 PIR_PIN, FLAME_PIN in *; lia));
  try reflexivity.

Lemma setup_postcondition_aux w :
  gpio_mode (setup_pins w) !! IN1 = Some OUTPUT
  /\ gpio_mode (setup_pins w) !! IN2 = Some OUTPUT
  /\ gpio_mode (setup_pins w) !! IN3 = Some OUTPUT
  /\ gpio_mode (setup_pins w) !! IN4 = Some OUTPUT
  /\ gpio_mode (setup_pins w) !! TRIG_PIN = Some OUTPUT.
Proof. repeat split; pin_tables. Qed.

(** X13. When [setup] stops to wait (for the sensor or for WiFi), the
    four direction pins and the trigger are outputs, the echo, IR, PIR
    and flame pins are inputs, the motors are stopped and the mode flag
    is untouched, so a freshly booted car is in manual mode. *)
Theorem setup_postcondition (mpu_begin : bool) (w : World) :
  let w' := world (setup mpu_begin w) in
  (gpio_mode w' !! IN1 = Some OUTPUT /\ gpio_mode w' !! IN2 = Some OUTPUT
   /\ gpio_mode w' !! IN3 = Some OUTPUT /\ gpio_mode w' !! IN4 = Some OUTPUT
   /\ gpio_mode w' !! TRIG_PIN = Some OUTPUT)
  /\ (gpio_mode w' !! ECHO_PIN = Some INPUT /\ gpio_mode w' !! IR_PIN = Some INPUT
      /\ gpio_mode w' !! PIR_PIN = Some INPUT /\ gpio_mode w' !! FLAME_PIN = Some INPUT)
  /\ outputs w' = (Some LOW, Some LOW, Some LOW, Some LOW)
  /\ autonomousMode w' = autonomousMode w
  /\ isAutonomous (world (setup mpu_begin boot)) = false.
Proof.
  assert (Hw : world (setup mpu_begin w) = setup_pins w)
    by (unfold setup; destruct (negb mpu_begin); reflexivity).
  assert (Hb : world (setup mpu_begin boot) = setup_pins boot)
    by (unfold setup; destruct (negb mpu_begin); reflexivity).
  cbv zeta. rewrite Hw, Hb.
  repeat split; try (unfold outputs; repeat f_equal); pin_tables.
Qed.

(** ** Inside a drive function *)

Lemma applyCommand_writes c w : applyCommand c w = do_writes (drive_writes c) w.
Proof. destruct c; reflexivity. Qed.






Section Executions.
Variable fmt : spec_float -> string.
Variable html : string.

(** A property of the state that every request keeps is kept by every
    execution. *)
Lemma run_keeps (P : World -> Prop) :
  (forall pending w, P w -> P (fst (handleClient fmt html pending w))) ->
  forall m tr m', run fmt html m tr m' -> P (world m) -> P (world m').
Proof.
  intros Hreq m tr m' Hr.
  induction Hr as [m|m1 e m2 tr m3 Hs Hr IH]; intros HP; [exact HP|].
  apply IH. destruct Hs; simpl in *; auto.
Qed.

Lemma step_effect m e m' :
  step fmt html m e m' ->
  autonomousMode (world m') = mode_step e (autonomousMode (world m))
  /\ outputs (world m') = outputs_step e (outputs (world m)).
Proof.
  intros Hs. destruct Hs; simpl; try (split; reflexivity).
  destruct (handleClient_effect fmt html pending w) as (Hm & Ho & _).
  split; assumption.
Qed.

Lemma no_shoot_through_outputs w :
  no_shoot_through w <->
  pair_ok (outputs w).1.1.1 (outputs w).1.1.2
  /\ pair_ok (outputs w).1.2 (outputs w).2.
Proof. reflexivity. Qed.

(** X14. Between requests no motor has both signals high: at the end
    of every execution that starts with [setup], that is after [setup]
    and after each completely handled request, whatever the requests
    were and in whatever order, telemetry and mode changes included.
    (Inside a drive function the writes come one at a time; those
    states are the subject of [during] above.) *)
Theorem execution_never_both_high
    (mpu_begin : bool) (w : World) (tr : list Event) (m : Machine) :
  run fmt html (setup mpu_begin w) tr m -> no_shoot_through (world m).
Proof.
  intros Hr. apply (run_keeps no_shoot_through) with (2 := Hr).
  - intros pending w0 Hs.
    destruct (handleClient_effect fmt html pending w0) as (_ & Ho & _).
    apply no_shoot_through_outputs. rewrite Ho.
    apply no_shoot_through_outputs in Hs.
    unfold outputs_step.
    destruct (snd (handleClient fmt html pending w0)); try exact Hs.
    destruct (command_of_path path) as [c|]; [|exact Hs].
    unfold pair_ok. destruct c; simpl; tauto.
  - unfold setup. destruct (negb mpu_begin); simpl;
      apply (applyCommand_safe Stop).
Qed.

(** X15. From a cold boot, every pin the sketch itself has written
    with [digitalWrite] is a pin that [setup] configured as OUTPUT with
    [pinMode]: this holds after [setup] and after each handled request.
    (Lines driven inside the sensor libraries, such as the DHT data
    pin, are not part of the sketch and are not modelled.) *)
Theorem execution_drives_outputs_only
    (mpu_begin : bool) (tr : list Event) (m : Machine) (q : Z) (v : Level) :
  run fmt html (setup mpu_begin boot) tr m ->
  gpio_out (world m) !! q = Some v ->
  gpio_mode (world m) !! q = Some OUTPUT.
Proof.
  intros Hr Hq.
  set (P := fun w : World =>
    forall q, (is_Some (gpio_out w !! q) ->
               q = IN1 \/ q = IN2 \/ q = IN3 \/ q = IN4 \/ q = TRIG_PIN)
              /\ (q = IN1 \/ q = IN2 \/ q = IN3 \/ q = IN4 \/ q = TRIG_PIN ->
                  gpio_mode w !! q = Some OUTPUT)).
  assert (HP : P (world m)).
  { apply (run_keeps P) with (2 := Hr).
    - intros pending w0 H0 p.
      destruct (handleClient_effect fmt html pending w0) as (_ & _ & Hm).
      pose proof (handleClient_other_pins fmt html pending w0 p) as Ho.
      rewrite Hm. split; [|apply H0].
      intros Hs.
      destruct (decide (p = IN1)); [tauto|]. destruct (decide (p = IN2)); [tauto|].
      destruct (decide (p = IN3)); [tauto|]. destruct (decide (p = IN4)); [tauto|].
      destruct (decide (p = TRIG_PIN)); [tauto|].
      rewrite Ho in Hs by assumption. apply H0, Hs.
    - assert (Hb : world (setup mpu_begin boot) = setup_pins boot)
        by (unfold setup; destruct (negb mpu_begin); reflexivity).
      rewrite Hb. intros p. split.
      + unfold setup_pins, stopCar. cbv zeta.
        rewrite !gpio_out_digitalWrite, !gpio_out_pinMode.
        change (gpio_out boot) with (∅ : gmap Z Level). rewrite lookup_empty.
        repeat case_decide; intros [x Hx]; try discriminate; subst; tauto.
      + destruct (setup_postcondition_aux boot) as (H1 & H2 & H3 & H4 & H5).
        intros [->|[->|[->|[->| ->]]]]; assumption. }
  apply HP. apply HP. eauto.
Qed.

(** X16. Nothing is served before WiFi is up: in every execution that
    starts with [setup], an event that answers a request comes after
    the event of the connection. *)
Theorem no_request_before_wifi
    (mpu_begin : bool) (w : World) (tr : list Event) (m : Machine)
    (pre post : list Event) (e : Event) :
  run fmt html (setup mpu_begin w) tr m ->
  tr = pre ++ e :: post -> is_request e = true -> WifiUp ∈ pre.
Proof.
  intros Hr.
  assert (Hph : phase (setup mpu_begin w) <> Serving)
    by (unfold setup; destruct (negb mpu_begin); discriminate).
  revert pre Hph.
  induction Hr as [m|m1 e1 m2 tr m3 Hs Hr IH]; intros pre Hph Htr Hreq.
  - destruct pre; discriminate.
  - destruct Hs; simpl in Hph; try congruence.
    + destruct pre as [|x pre]; injection Htr as <- Htr; [discriminate|].
      apply elem_of_cons. right. apply IH; [discriminate | assumption..].
    + destruct pre as [|x pre]; injection Htr as <- Htr; [discriminate|].
      apply elem_of_cons. right. apply IH; [discriminate | assumption..].
    + destruct pre as [|x pre]; injection Htr as <- Htr; [discriminate|].
      apply elem_of_cons. left. reflexivity.
Qed.

(** X17. The mode at the end of an execution is decided by the mode
    requests it served, the last one winning, and by nothing else: not
    by the sensor readings and not by the drive commands. *)
Theorem mode_follows_requests (m : Machine) (tr : list Event) (m' : Machine) :
  run fmt html m tr m' ->
  autonomousMode (world m') = mode_after tr (autonomousMode (world m)).
Proof.
  intros Hr. induction Hr as [m|m1 e m2 tr m3 Hs Hr IH]; [reflexivity|].
  rewrite IH. destruct (step_effect _ _ _ Hs) as [-> _]. reflexivity.
Qed.

(** X18. The direction outputs at the end of an execution that starts
    with [setup] are those of the last movement request it served, in
    whatever mode it was served, and all low if there was none. *)
Theorem outputs_follow_requests
    (mpu_begin : bool) (w : World) (tr : list Event) (m : Machine) :
  run fmt html (setup mpu_begin w) tr m ->
  outputs (world m) = outputs_after tr (Some LOW, Some LOW, Some LOW, Some LOW).
Proof.
  intros Hr.
  assert (H0 : outputs (world (setup mpu_begin w))
               = (Some LOW, Some LOW, Some LOW, Some LOW))
    by (unfold setup; destruct (negb mpu_begin); simpl;
        apply (applyCommand_outputs Stop)).
  rewrite <- H0. clear H0.
  induction Hr as [m|m1 e m2 tr m3 Hs Hr IH]; [reflexivity|].
  rewrite IH. destruct (step_effect _ _ _ Hs) as [_ ->]. reflexivity.
Qed.

End Executions.

(** ** The dashboard page against the routes and the telemetry *)

Lemma dashboard_links :
  page_links dashboard_page
  = ["/forward"; "/backward"; "/left"; "/right"; "/stop"; "/enableAuto";
     "/disableAuto"; "/data"].
Proof. vm_compute. reflexivity. Qed.

Lemma dashboard_reads :
  member_reads false dashboard_page
  = ["distance"; "ir"; "motion"; "temperature"; "humidity"; "flame";
     "accel"; "gyro"; "autonomous"; "autonomous"].
Proof. vm_compute. reflexivity. Qed.

Lemma route_registered fmt html path :
  is_Some (route fmt html path) <-> path ∈ registered.
Proof.
  unfold route, registered. rewrite !elem_of_cons, elem_of_nil.
  repeat (match goal with
          | |- context [String.eqb path ?s] =>
              destruct (String.eqb_spec path s) as [->|?]
          end;
          [split; [intros _; repeat (first [left; reflexivity | right])
                  | intros _; eexists; reflexivity] |]).
  split; [intros [x Hx]; discriminate | intros H; exfalso; intuition congruence].
Qed.

(** X19. The page served at [/] and the route table agree: every link
    and every fetch of the page goes to a registered path, and every
    registered path other than the page itself is reachable from it. *)
Theorem dashboard_links_are_routes
    (fmt : spec_float -> string) (w : World) (path : string) :
  let page := body (snd (handleRoot dashboard_page w)) in
  (path ∈ page_links page -> is_Some (route fmt dashboard_page path))
  /\ (is_Some (route fmt dashboard_page path) ->
      path = "/" \/ path ∈ page_links page).
Proof.
  simpl. rewrite route_registered, dashboard_links.
  unfold registered. rewrite !elem_of_cons, !elem_of_nil. tauto.
Qed.

(** X20. The script of the page and the [/data] object agree: the
    members the script reads off the response are exactly the keys the
    response carries, and the text it compares the [autonomous] member
    with is the one sent exactly when the mode flag is set. *)
Theorem dashboard_reads_telemetry_keys
    (fmt : spec_float -> string) (env : Sensors) (w : World) (key : string) :
  let fields := telemetry_fields fmt (fst (getDistance (pulseIn env) w))
                                 env (autonomousMode w) in
  body (snd (handleData fmt env w)) = render_object fields
  /\ (key ∈ member_reads false dashboard_page <-> is_Some (field key fields))
  /\ (forall t, t ∈ quoted_after "d.autonomous==='" dashboard_page ->
        (field "autonomous" fields = Some (JStr t) <-> autonomousMode w = true)).
Proof.
  intros fields. split; [apply handleData_body|]. split.
  - rewrite dashboard_reads. subst fields. unfold telemetry_fields, field.
    rewrite !elem_of_cons, elem_of_nil.
    repeat (match goal with
            | |- context [String.eqb ?s key] =>
                destruct (String.eqb_spec s key) as [<-|?]
            end;
            [split; [intros _; eexists; reflexivity
                    | intros _; repeat (first [left; reflexivity | right])] |]).
    split; [intros H; exfalso; intuition congruence | intros [x Hx]; discriminate].
  - replace (quoted_after "d.autonomous==='" dashboard_page) with ["ENABLED"]
      by (vm_compute; reflexivity).
    intros t Ht. apply list_elem_of_singleton in Ht as ->.
    subst fields. unfold telemetry_fields.
    cbn [field String.eqb Ascii.eqb Bool.eqb].
    destruct (autonomousMode w); split; intros; congruence.
Qed.

(** ** A concrete session *)

Lemma serve_run fmt html reqs w :
  run fmt html {| phase := Serving; world := w |}
      (fst (serve fmt html reqs w))
      {| phase := Serving; world := snd (serve fmt html reqs w) |}.
Proof.
  revert w. induction reqs as [|pending rest IH]; intros w; simpl.
  - apply run_done.
  - pose proof (step_loop fmt html w pending) as Hs.
    destruct (handleClient fmt html pending w) as [w' e]; simpl in Hs.
    specialize (IH w'). destruct (serve fmt html rest w') as [tr w''].
    simpl in *. eapply run_step; eassumption.
Qed.

(** The session, from a cold boot with a working sensor. *)
Lemma session_run :
  run String_2dp dashboard_page (setup true boot)
      (WifiUp :: fst (serve String_2dp dashboard_page session (setup_pins boot)))
      {| phase := Serving;
         world := snd (serve String_2dp dashboard_page session (setup_pins boot)) |}.
Proof.
  eapply run_step; [apply step_wifi_up | apply serve_run].
Qed.

Lemma execution_never_both_high_witness :
  no_shoot_through
    (snd (serve String_2dp dashboard_page session (setup_pins boot))).
Proof.
  exact (execution_never_both_high String_2dp dashboard_page true boot _ _
           session_run).
Defined.

Lemma execution_drives_outputs_only_witness :
  gpio_out (snd (serve String_2dp dashboard_page session (setup_pins boot)))
    !! TRIG_PIN = Some LOW
  /\ gpio_mode (snd (serve String_2dp dashboard_page session (setup_pins boot)))
       !! TRIG_PIN = Some OUTPUT.
Proof.
  assert (H : gpio_out (snd (serve String_2dp dashboard_page session
                               (setup_pins boot))) !! TRIG_PIN = Some LOW)
    by (vm_compute; reflexivity).
  split; [exact H|].
  exact (execution_drives_outputs_only String_2dp dashboard_page true _ _
           TRIG_PIN LOW session_run H).
Defined.

Lemma no_request_before_wifi_witness :
  WifiUp ∈ [WifiUp; Served "/enableAuto" redirect].
Proof.
  apply (no_request_before_wifi String_2dp dashboard_page true boot _ _
           [WifiUp; Served "/enableAuto" redirect]
           (skipn 2 (fst (serve String_2dp dashboard_page session (setup_pins boot))))
           (Served "/forward" redirect) session_run);
    vm_compute; reflexivity.
Defined.

Lemma mode_follows_requests_witness :
  autonomousMode (snd (serve String_2dp dashboard_page session (setup_pins boot)))
  = mode_after
      (WifiUp :: fst (serve String_2dp dashboard_page session (setup_pins boot)))
      false.
Proof.
  exact (mode_follows_requests String_2dp dashboard_page _ _ _ session_run).
Defined.

Lemma outputs_follow_requests_witness :
  outputs (snd (serve String_2dp dashboard_page session (setup_pins boot)))
  = outputs_after
      (WifiUp :: fst (serve String_2dp dashboard_page session (setup_pins boot)))
      (Some LOW, Some LOW, Some LOW, Some LOW).
Proof.
  exact (outputs_follow_requests String_2dp dashboard_page true boot _ _
           session_run).
Defined.

(** What the session shows: the car ends stopped and in autonomous
    mode, and the telemetry says so. *)
Example session_end :
  let w := snd (serve String_2dp dashboard_page session (setup_pins boot)) in
  outputs w = (Some LOW, Some LOW, Some LOW, Some LOW)
  /\ autonomousMode w = true
  /\ map is_request (fst (serve String_2dp dashboard_page session (setup_pins boot)))
     = [true; true; true; false; true; true].
Proof. vm_compute. repeat split. Qed.
